(** * SkyLand: the simulation tick engine and its state-mutation contracts

    A shallow embedding of the game logic of [App.tsx], [constants.ts] and
    [types.ts], of the checks [generateGovernanceProposal] makes on a
    generated proposal, and of the two places where [IsoMap.tsx] reads the
    grid (the road markings and the placement preview).

    Conventions of the embedding.
    - A JavaScript [number] that carries a fractional quantity (money,
      population, token amounts, rates) is an exact rational [Q]; rounding,
      NaN and the infinities of IEEE doubles are outside the model.  Where
      a property is an exact identity that rounding breaks, the operations
      of binary64 are used instead ([handleStake64]).
      Counters that only ever move in whole steps (tile coordinates, tile
      levels, the day, the block number) are integers [Z].
    - React state is one record [AppState]; a handler is a function from the
      state before the event to the state after the re-render.  The [useRef]
      mirrors are synchronised after every render, so inside a handler they
      read the state the handler starts from.
    - A handler that would raise a [TypeError] before its first setter is a
      function into [option], with [None] for the exception.
    - Texts built from template strings are kept symbolic ([NewsText],
      [TxDetails]); identifiers made from [Date.now()] and [Math.random()]
      are not represented. *)

From Stdlib Require Import ZArith QArith Qround Qminmax Lqa Lia String.
From Stdlib Require Import Qpower Floats.
From stdpp Require Import base option list gmap.

Local Open Scope Q_scope.

(** ** types.ts *)

Inductive BuildingType : Type :=
  | BNone
  | Road
  | Residential
  | Commercial
  | Industrial
  | Park
  | School
  | Hospital
  | Entertainment.

#[global] Instance BuildingType_eq_dec : EqDecision BuildingType.
Proof. solve_decision. Defined.

Definition BuildingType_code (b : BuildingType) : nat :=
  match b with
  | BNone => 0 | Road => 1 | Residential => 2 | Commercial => 3
  | Industrial => 4 | Park => 5 | School => 6 | Hospital => 7
  | Entertainment => 8
  end.

Definition BuildingType_of_code (n : nat) : option BuildingType :=
  match n with
  | 0 => Some BNone | 1 => Some Road | 2 => Some Residential
  | 3 => Some Commercial | 4 => Some Industrial | 5 => Some Park
  | 6 => Some School | 7 => Some Hospital | 8 => Some Entertainment
  | _ => None
  end%nat.

#[global] Instance BuildingType_countable : Countable BuildingType.
Proof.
  apply (inj_countable BuildingType_code BuildingType_of_code).
  intros []; reflexivity.
Defined.

Record BuildingConfig : Type := mkBuildingConfig {
  cfg_type : BuildingType;
  cfg_cost : Q;
  cfg_name : string;
  cfg_description : string;
  cfg_color : string;
  cfg_popGen : Q;
  cfg_incomeGen : Q
}.

(** [variant] and [level] are optional fields of the interface. *)
Record TileData : Type := mkTileData {
  tile_x : Z;
  tile_y : Z;
  tile_buildingType : BuildingType;
  tile_variant : option Z;
  tile_level : option Z
}.

Abbreviation Grid := (list (list TileData)).

Record CityStats : Type := mkCityStats {
  money : Q;
  population : Q;
  day : Z
}.

Inductive TargetType : Type := T_population | T_money | T_building_count.

Record AIGoal : Type := mkAIGoal {
  goal_description : string;
  goal_targetType : TargetType;
  goal_targetValue : Q;
  goal_buildingType : option BuildingType;
  goal_reward : Q;
  goal_completed : bool
}.

Inductive NewsType : Type := positive | negative | neutral.

(** The texts the application itself writes into the feed; [Headline] is a
    text produced by the generation service. *)
Inductive NewsText : Type :=
  | Welcome
  | CannotAffordDemolition
  | TreasuryInsufficient (name : string)
  | Upgraded (name : string) (newLevel : Z)
  | InsufficientUpgrade
  | GoalAchieved (reward : Q)
  | WalletConnected
  | SwappedFor (cost amount : Q)
  | SoldFor (amount cost : Q)
  | AuditCompleted
  | ProposalPassed (label : string)
  | Headline (text : string).

Record NewsItem : Type := mkNewsItem {
  news_text : NewsText;
  news_type : NewsType
}.

Inductive TxType : Type := SWAP | STAKE | UNSTAKE | VOTE | REWARD | DEPLOY.

Inductive TxDetails : Type :=
  | BuySky (amount : Q)
  | SellSky (amount : Q)
  | StakedSky (amount : Q)
  | UnstakedSky (amount : Q)
  | Voted (label : string)
  | ContractDeployed (title : string).

Record Transaction : Type := mkTransaction {
  tx_type : TxType;
  tx_details : TxDetails;
  tx_block : Z
}.

Inductive EffectType : Type := tax_break | population_boom | austerity | festival.

Record DAOOption : Type := mkDAOOption {
  opt_label : string;
  opt_effectDescription : string;
  opt_effectType : EffectType
}.

Inductive ProposalStatus : Type := active | passed | rejected.

Inductive Risk : Type := Low | Medium | Critical.

Record AuditResult : Type := mkAuditResult {
  audit_score : Z;
  audit_risk : Risk;
  audit_analysis : string
}.

Record DAOProposal : Type := mkDAOProposal {
  prop_title : string;
  prop_description : string;
  prop_options : list DAOOption;
  prop_expiresAt : Z;
  prop_votes : Z * Z;
  prop_status : ProposalStatus;
  prop_soliditySnippet : option string;
  prop_audit : option AuditResult
}.

Record Web3State : Type := mkWeb3State {
  isConnected : bool;
  address : option string;
  skyBalance : Q;
  stakedSky : Q;
  skyPrice : Q;
  blockNumber : Z
}.

(** ** constants.ts *)

Definition GRID_SIZE : Z := 15.
Definition TICK_RATE_MS : Z := 2000.
Definition INITIAL_MONEY : Q := 1000.

Definition BUILDINGS (t : BuildingType) : BuildingConfig :=
  match t with
  | BNone => mkBuildingConfig BNone 0 "Bulldoze" "Clear a tile" "#ef4444" 0 0
  | Road => mkBuildingConfig Road 10 "Road" "Connects buildings." "#374151" 0 0
  | Residential =>
      mkBuildingConfig Residential 100 "House" "+5 Pop/day" "#f87171" 5 0
  | Commercial =>
      mkBuildingConfig Commercial 200 "Shop" "+$15/day" "#60a5fa" 0 15
  | Industrial =>
      mkBuildingConfig Industrial 400 "Factory" "+$40/day" "#facc15" 0 40
  | Park => mkBuildingConfig Park 50 "Park" "Looks nice." "#4ade80" 1 0
  | School =>
      mkBuildingConfig School 500 "School" "+10 Pop/day" "#fb923c" 10 (-5)
  | Hospital =>
      mkBuildingConfig Hospital 800 "Hospital" "+15 Pop/day" "#f472b6" 15 (-10)
  | Entertainment =>
      mkBuildingConfig Entertainment 600 "Cinema" "+$25/day" "#c084fc" 2 25
  end.

(** ** App.tsx: state *)

Record GameModifiers : Type := mkGameModifiers {
  taxRate : Q;
  growthRate : Q
}.

Record AppState : Type := mkAppState {
  gameStarted : bool;
  aiEnabled : bool;
  grid : Grid;
  stats : CityStats;
  selectedTool : BuildingType;
  selectedTilePos : option (Z * Z);
  currentGoal : option AIGoal;
  newsFeed : list NewsItem;
  web3State : Web3State;
  activeProposal : option DAOProposal;
  transactions : list Transaction;
  gameModifiers : GameModifiers
}.

(** The setters of the [useState] hooks. *)
Definition setAiEnabled (v : bool) (s : AppState) : AppState :=
  mkAppState (gameStarted s) v (grid s) (stats s) (selectedTool s)
    (selectedTilePos s) (currentGoal s) (newsFeed s) (web3State s)
    (activeProposal s) (transactions s) (gameModifiers s).

Definition setGameStarted (v : bool) (s : AppState) : AppState :=
  mkAppState v (aiEnabled s) (grid s) (stats s) (selectedTool s)
    (selectedTilePos s) (currentGoal s) (newsFeed s) (web3State s)
    (activeProposal s) (transactions s) (gameModifiers s).

Definition setGrid (v : Grid) (s : AppState) : AppState :=
  mkAppState (gameStarted s) (aiEnabled s) v (stats s) (selectedTool s)
    (selectedTilePos s) (currentGoal s) (newsFeed s) (web3State s)
    (activeProposal s) (transactions s) (gameModifiers s).

Definition setStats (f : CityStats -> CityStats) (s : AppState) : AppState :=
  mkAppState (gameStarted s) (aiEnabled s) (grid s) (f (stats s))
    (selectedTool s) (selectedTilePos s) (currentGoal s) (newsFeed s)
    (web3State s) (activeProposal s) (transactions s) (gameModifiers s).

Definition setSelectedTool (v : BuildingType) (s : AppState) : AppState :=
  mkAppState (gameStarted s) (aiEnabled s) (grid s) (stats s) v
    (selectedTilePos s) (currentGoal s) (newsFeed s) (web3State s)
    (activeProposal s) (transactions s) (gameModifiers s).

Definition setSelectedTilePos (v : option (Z * Z)) (s : AppState) : AppState :=
  mkAppState (gameStarted s) (aiEnabled s) (grid s) (stats s) (selectedTool s)
    v (currentGoal s) (newsFeed s) (web3State s) (activeProposal s)
    (transactions s) (gameModifiers s).

Definition setCurrentGoal (v : option AIGoal) (s : AppState) : AppState :=
  mkAppState (gameStarted s) (aiEnabled s) (grid s) (stats s) (selectedTool s)
    (selectedTilePos s) v (newsFeed s) (web3State s) (activeProposal s)
    (transactions s) (gameModifiers s).

Definition setNewsFeed (f : list NewsItem -> list NewsItem) (s : AppState)
  : AppState :=
  mkAppState (gameStarted s) (aiEnabled s) (grid s) (stats s) (selectedTool s)
    (selectedTilePos s) (currentGoal s) (f (newsFeed s)) (web3State s)
    (activeProposal s) (transactions s) (gameModifiers s).

Definition setWeb3State (f : Web3State -> Web3State) (s : AppState)
  : AppState :=
  mkAppState (gameStarted s) (aiEnabled s) (grid s) (stats s) (selectedTool s)
    (selectedTilePos s) (currentGoal s) (newsFeed s) (f (web3State s))
    (activeProposal s) (transactions s) (gameModifiers s).

Definition setActiveProposal (f : option DAOProposal -> option DAOProposal)
    (s : AppState) : AppState :=
  mkAppState (gameStarted s) (aiEnabled s) (grid s) (stats s) (selectedTool s)
    (selectedTilePos s) (currentGoal s) (newsFeed s) (web3State s)
    (f (activeProposal s)) (transactions s) (gameModifiers s).

Definition setTransactions (f : list Transaction -> list Transaction)
    (s : AppState) : AppState :=
  mkAppState (gameStarted s) (aiEnabled s) (grid s) (stats s) (selectedTool s)
    (selectedTilePos s) (currentGoal s) (newsFeed s) (web3State s)
    (activeProposal s) (f (transactions s)) (gameModifiers s).

Definition setGameModifiers (f : GameModifiers -> GameModifiers)
    (s : AppState) : AppState :=
  mkAppState (gameStarted s) (aiEnabled s) (grid s) (stats s) (selectedTool s)
    (selectedTilePos s) (currentGoal s) (newsFeed s) (web3State s)
    (activeProposal s) (transactions s) (f (gameModifiers s)).

(** Object spreads [{...prev, field: v}]. *)
Definition withMoney (v : Q) (st : CityStats) : CityStats :=
  mkCityStats v (population st) (day st).

Definition withBuilding (b : BuildingType) (l : Z) (t : TileData)
  : TileData :=
  mkTileData (tile_x t) (tile_y t) b (tile_variant t) (Some l).

Definition withLevel (l : Z) (t : TileData) : TileData :=
  mkTileData (tile_x t) (tile_y t) (tile_buildingType t) (tile_variant t)
    (Some l).

Definition withCompleted (b : bool) (g : AIGoal) : AIGoal :=
  mkAIGoal (goal_description g) (goal_targetType g) (goal_targetValue g)
    (goal_buildingType g) (goal_reward g) b.

Definition withAudit (a : AuditResult) (p : DAOProposal) : DAOProposal :=
  mkDAOProposal (prop_title p) (prop_description p) (prop_options p)
    (prop_expiresAt p) (prop_votes p) (prop_status p)
    (prop_soliditySnippet p) (Some a).

(** JavaScript comparisons on numbers. *)
Definition Qlt_bool (a b : Q) : bool := negb (Qle_bool b a).

(** [tile.level || 1]: a missing level and the level 0 both read as 1. *)
Definition levelOr1 (t : TileData) : Z :=
  match tile_level t with
  | Some l => if (l =? 0)%Z then 1%Z else l
  | None => 1%Z
  end.

(** [arr.slice(-n)]: the last [n] elements. *)
Definition sliceLast {A : Type} (n : nat) (l : list A) : list A :=
  drop (length l - n) l.

(** [grid[y][x]]; an index outside the arrays gives [undefined]. *)
Definition getTile (g : Grid) (x y : Z) : option TileData :=
  if ((x <? 0)%Z || (y <? 0)%Z)%bool then None
  else g !! Z.to_nat y ≫= (λ row, row !! Z.to_nat x).

(** [newGrid = g.map(row => [...row]); newGrid[y][x] = t], for an index
    inside the arrays (the only way the handlers use it). *)
Definition setTile (g : Grid) (x y : Z) (t : TileData) : Grid :=
  alter (λ row, <[Z.to_nat x := t]> row) (Z.to_nat y) g.

Definition createInitialGrid : Grid :=
  (λ y, (λ x, mkTileData x y BNone None (Some 1%Z)) <$> seqZ 0 GRID_SIZE)
    <$> seqZ 0 GRID_SIZE.

Definition initialState : AppState :=
  mkAppState false true createInitialGrid
    (mkCityStats INITIAL_MONEY 0 1) Road None None []
    (mkWeb3State false None 0 0 50 1024500) None []
    (mkGameModifiers 1.0 1.0).

(** ** App.tsx: helpers *)

Definition addTransaction (type : TxType) (details : TxDetails)
    (s : AppState) : AppState :=
  let newTx := mkTransaction type details (blockNumber (web3State s)) in
  setTransactions (λ prev, sliceLast 19 prev ++ [newTx]) s.

Definition addNewsItem (item : NewsItem) (s : AppState) : AppState :=
  setNewsFeed (λ prev, sliceLast 12 prev ++ [item]) s.

(** ** App.tsx: the game loop *)

(** The accumulators of the first [forEach]: [dailyIncome],
    [dailyPopGrowth] and [buildingCounts]. *)
Definition Tally : Type := Q * Q * gmap BuildingType Z.

Definition scanTile (acc : Tally) (tile : TileData) : Tally :=
  let '(dailyIncome, dailyPopGrowth, buildingCounts) := acc in
  if decide (tile_buildingType tile = BNone) then acc
  else
    let config := BUILDINGS (tile_buildingType tile) in
    let level := inject_Z (levelOr1 tile) in
    (dailyIncome + cfg_incomeGen config * level,
     dailyPopGrowth + cfg_popGen config * level,
     <[tile_buildingType tile :=
         (default 0 (buildingCounts !! tile_buildingType tile) + 1)%Z]>
       buildingCounts).

Definition scanGrid (g : Grid) : Tally :=
  fold_left scanTile (concat g) (0, 0, ∅).

(** The second [forEach]: the housing capacity. *)
Definition capTile (housingCap : Q) (tile : TileData) : Q :=
  if decide (tile_buildingType tile = Residential)
  then housingCap + 50 * inject_Z (levelOr1 tile)
  else housingCap.

Definition housingCapOf (g : Grid) : Q := fold_left capTile (concat g) 0.

(** [dailyIncome] after the DAO modifier. *)
Definition dailyIncomeOf (s : AppState) : Q :=
  let dailyIncome := fst (fst (scanGrid (grid s))) in
  dailyIncome * taxRate (gameModifiers s).

(** [dailyPopGrowth] after the DAO modifier and the staking reward. *)
Definition dailyPopGrowthOf (s : AppState) : Q :=
  let dailyPopGrowth := snd (fst (scanGrid (grid s))) in
  let dailyPopGrowth := dailyPopGrowth * growthRate (gameModifiers s) in
  if Qlt_bool 0 (stakedSky (web3State s)) then
    let stakeBonus := 1 + stakedSky (web3State s) / 1000 in
    dailyPopGrowth * stakeBonus
  else dailyPopGrowth.

(** [newPop] after [if (newPop > housingCap) newPop = housingCap]. *)
Definition limitPop (prevPopulation dailyPopGrowth housingCap : Q) : Q :=
  let newPop := prevPopulation + dailyPopGrowth in
  if Qlt_bool housingCap newPop then housingCap else newPop.

(** [newPop] as it is stored: the limit, then the people leaving. *)
Definition nextPopulation (prevPopulation dailyPopGrowth housingCap : Q) : Q :=
  let newPop := limitPop prevPopulation dailyPopGrowth housingCap in
  if (Qeq_bool housingCap 0 && Qlt_bool 0 prevPopulation)%bool
  then Qmax 0 (prevPopulation - 5)
  else newPop.

Definition nextStats (s : AppState) : CityStats :=
  let prev := stats s in
  mkCityStats (money prev + dailyIncomeOf s)
    (nextPopulation (population prev) (dailyPopGrowthOf s)
       (housingCapOf (grid s)))
    (day prev + 1)%Z.

(** [isMet] of the goal check. *)
Definition goalIsMet (goal : AIGoal) (newStats : CityStats)
    (buildingCounts : gmap BuildingType Z) : bool :=
  match goal_targetType goal with
  | T_money => Qle_bool (goal_targetValue goal) (money newStats)
  | T_population => Qle_bool (goal_targetValue goal) (population newStats)
  | T_building_count =>
      match goal_buildingType goal with
      | Some b =>
          Qle_bool (goal_targetValue goal)
            (inject_Z (default 0%Z (buildingCounts !! b)))
      | None => false
      end
  end.

(** Step 3 of the loop; the result is the goal slot after the tick. *)
Definition checkGoal (s : AppState) (newStats : CityStats) : option AIGoal :=
  match currentGoal s with
  | Some goal =>
      if (aiEnabled s && negb (goal_completed goal))%bool then
        if goalIsMet goal newStats (snd (scanGrid (grid s)))
        then Some (withCompleted true goal)
        else Some goal
      else Some goal
  | None => None
  end.

(** Step 4 of the loop.  [rnd] is the value of [Math.random()], in [0, 1);
    [statsRef.current] still holds the statistics the tick started from. *)
Definition mine (rnd : Q) (s : AppState) (prev : Web3State) : Web3State :=
  mkWeb3State (isConnected prev) (address prev)
    (skyBalance prev + (population (stats s) / 100) * 0.1)
    (stakedSky prev)
    (Qmax 10 (skyPrice prev + (rnd - 0.5) * 2))
    (blockNumber prev + 1)%Z.

(** One run of the interval callback.  The requests to the generation
    service it may start are answered later, by events of their own. *)
Definition tick (rnd : Q) (s : AppState) : AppState :=
  let newStats := nextStats s in
  let goal' := checkGoal s newStats in
  let s1 := setCurrentGoal goal' (setStats (λ _, newStats) s) in
  if isConnected (web3State s) then setWeb3State (mine rnd s) s1 else s1.

(** ** App.tsx: interaction logic *)

Definition demolishCost : Q := 5.

Definition handleTileClick (x y : Z) (s : AppState) : option AppState :=
  if negb (gameStarted s) then Some s
  else
    let currentGrid := grid s in
    let currentStats := stats s in
    let tool := selectedTool s in
    if ((x <? 0)%Z || (GRID_SIZE <=? x)%Z || (y <? 0)%Z
        || (GRID_SIZE <=? y)%Z)%bool
    then Some s
    else
      currentTile ← getTile currentGrid x y;
      let buildingConfig := BUILDINGS tool in
      if (bool_decide (tool ≠ BNone)
          && bool_decide (tile_buildingType currentTile ≠ BNone)
          && bool_decide (tile_buildingType currentTile ≠ Road))%bool
      then Some (setSelectedTilePos (Some (x, y)) s)
      else if bool_decide (tool = BNone) then
        (* Bulldoze logic *)
        if bool_decide (tile_buildingType currentTile ≠ BNone) then
          if Qle_bool demolishCost (money currentStats) then
            let s1 :=
              if bool_decide (selectedTilePos s = Some (x, y))
              then setSelectedTilePos None s else s in
            let newGrid :=
              setTile currentGrid x y (withBuilding BNone 1 currentTile) in
            Some (setStats (λ prev, withMoney (money prev - demolishCost) prev)
                    (setGrid newGrid s1))
          else
            Some (addNewsItem (mkNewsItem CannotAffordDemolition negative) s)
        else Some s
      else if bool_decide (tile_buildingType currentTile = BNone) then
        (* Placement logic *)
        if Qle_bool (cfg_cost buildingConfig) (money currentStats) then
          let s1 :=
            match selectedTilePos s with
            | Some _ => setSelectedTilePos None s
            | None => s
            end in
          let s2 :=
            setStats
              (λ prev, withMoney (money prev - cfg_cost buildingConfig) prev)
              s1 in
          let newGrid :=
            setTile currentGrid x y (withBuilding tool 1 currentTile) in
          Some (setGrid newGrid s2)
        else
          Some (addNewsItem
                  (mkNewsItem (TreasuryInsufficient (cfg_name buildingConfig))
                     negative) s)
      else Some s.

(** [Math.floor(config.cost * Math.pow(1.5, currentLevel))]. *)
Definition upgradeCostOf (tile : TileData) : Z :=
  let config := BUILDINGS (tile_buildingType tile) in
  let currentLevel := levelOr1 tile in
  Qfloor (cfg_cost config * 1.5 ^ currentLevel).

Definition handleUpgrade (s : AppState) : option AppState :=
  match selectedTilePos s with
  | None => Some s
  | Some (x, y) =>
      tile ← getTile (grid s) x y;
      let config := BUILDINGS (tile_buildingType tile) in
      let currentLevel := levelOr1 tile in
      let upgradeCost := inject_Z (upgradeCostOf tile) in
      if Qle_bool upgradeCost (money (stats s)) then
        let s1 :=
          setStats (λ prev, withMoney (money prev - upgradeCost) prev) s in
        let newGrid :=
          setTile (grid s) x y (withLevel (currentLevel + 1) tile) in
        Some (addNewsItem
                (mkNewsItem (Upgraded (cfg_name config) (currentLevel + 1))
                   positive)
                (setGrid newGrid s1))
      else Some (addNewsItem (mkNewsItem InsufficientUpgrade negative) s)
  end.

Definition handleClaimReward (s : AppState) : AppState :=
  match currentGoal s with
  | Some goal =>
      if goal_completed goal then
        setCurrentGoal None
          (addNewsItem (mkNewsItem (GoalAchieved (goal_reward goal)) positive)
             (setStats (λ prev, withMoney (money prev + goal_reward goal) prev)
                s))
      else s
  | None => s
  end.

(** [handleStart], followed by the set-up effect that fires once
    [gameStarted] has become true. *)
Definition handleStart (enabled : bool) (s : AppState) : AppState :=
  addNewsItem (mkNewsItem Welcome positive)
    (setGameStarted true (setAiEnabled enabled s)).

Definition handleSelectTool (tool : BuildingType) (s : AppState) : AppState :=
  setSelectedTilePos None (setSelectedTool tool s).

Definition onCloseSelection (s : AppState) : AppState :=
  setSelectedTilePos None s.

(** *** Web3 handlers *)

Definition handleConnectWallet (s : AppState) : AppState :=
  addNewsItem (mkNewsItem WalletConnected positive)
    (setWeb3State
       (λ prev, mkWeb3State true (Some "0x71C...9A23"%string) 100
                  (stakedSky prev) (skyPrice prev) (blockNumber prev))
       s).

Inductive Direction : Type := buy | sell.

Definition handleSwap (direction : Direction) (amount : Q) (s : AppState)
  : AppState :=
  let price := skyPrice (web3State s) in
  let cost := amount * price in
  match direction with
  | buy =>
      if Qle_bool cost (money (stats s)) then
        addNewsItem (mkNewsItem (SwappedFor cost amount) neutral)
          (addTransaction SWAP (BuySky amount)
             (setWeb3State
                (λ prev, mkWeb3State (isConnected prev) (address prev)
                           (skyBalance prev + amount) (stakedSky prev)
                           (skyPrice prev) (blockNumber prev))
                (setStats (λ prev, withMoney (money prev - cost) prev) s)))
      else s
  | sell =>
      if Qle_bool amount (skyBalance (web3State s)) then
        addNewsItem (mkNewsItem (SoldFor amount cost) neutral)
          (addTransaction SWAP (SellSky amount)
             (setWeb3State
                (λ prev, mkWeb3State (isConnected prev) (address prev)
                           (skyBalance prev - amount) (stakedSky prev)
                           (skyPrice prev) (blockNumber prev))
                (setStats (λ prev, withMoney (money prev + cost) prev) s)))
      else s
  end.

Definition handleStake (amount : Q) (s : AppState) : AppState :=
  if Qle_bool amount (skyBalance (web3State s)) then
    addTransaction STAKE (StakedSky amount)
      (setWeb3State
         (λ prev, mkWeb3State (isConnected prev) (address prev)
                    (skyBalance prev - amount) (stakedSky prev + amount)
                    (skyPrice prev) (blockNumber prev))
         s)
  else s.

Definition handleUnstake (amount : Q) (s : AppState) : AppState :=
  if Qle_bool amount (stakedSky (web3State s)) then
    addTransaction UNSTAKE (UnstakedSky amount)
      (setWeb3State
         (λ prev, mkWeb3State (isConnected prev) (address prev)
                    (skyBalance prev + amount) (stakedSky prev - amount)
                    (skyPrice prev) (blockNumber prev))
         s)
  else s.

(** The [if] chain under "Apply Effects". *)
Definition applyEffect (e : EffectType) (s : AppState) : AppState :=
  match e with
  | tax_break =>
      setGameModifiers (λ prev, mkGameModifiers 1.2 (growthRate prev)) s
  | population_boom =>
      setGameModifiers (λ prev, mkGameModifiers (taxRate prev) 1.5) s
  | austerity => setGameModifiers (λ _, mkGameModifiers 0.8 0.8) s
  | festival =>
      setGameModifiers (λ prev, mkGameModifiers (taxRate prev) 2.0)
        (setStats (λ prev, withMoney (money prev - 500) prev) s)
  end.

(** [activeProposal.options[optionIndex]] is [undefined] for an index
    outside the array, and reading its [label] then throws. *)
Definition handleVote (optionIndex : nat) (s : AppState) : option AppState :=
  match activeProposal s with
  | None => Some s
  | Some proposal =>
      choice ← prop_options proposal !! optionIndex;
      let s1 :=
        addNewsItem (mkNewsItem (ProposalPassed (opt_label choice)) positive)
          s in
      let s2 := addTransaction VOTE (Voted (opt_label choice)) s1 in
      let s3 :=
        addTransaction DEPLOY (ContractDeployed (prop_title proposal)) s2 in
      let s4 := applyEffect (opt_effectType choice) s3 in
      Some (setActiveProposal (λ _, None) s4)
  end.

(** ** Results of the generation service

    The asynchronous calls ([fetchNewGoal], [fetchNews], [fetchProposal],
    [handleConnectWallet], [handleAudit]) apply their result in a setter of
    their own, some time after they were started. *)


(** [setCurrentGoal(newGoal)] with [newGoal = {...goalData, completed: false}]. *)
Definition goalGenerated (goalData : AIGoal) (s : AppState) : AppState :=
  setCurrentGoal (Some (withCompleted false goalData)) s.

Definition newsGenerated (text : string) (type : NewsType) (s : AppState)
  : AppState :=
  addNewsItem (mkNewsItem (Headline text) type) s.

(** [generateGovernanceProposal] followed by [setActiveProposal(proposal)];
    [dispatchDay] is [stats.day] when the request was made. *)
Definition proposalGenerated (title description : string)
    (options : list DAOOption) (soliditySnippet : option string)
    (dispatchDay : Z) (s : AppState) : AppState :=
  if (2 <=? length options)%nat then
    setActiveProposal
      (λ _, Some (mkDAOProposal title description (take 2 options)
                    (dispatchDay + 5)%Z (0, 0)%Z active soliditySnippet None))
      s
  else s.

Definition auditGenerated (result : AuditResult) (s : AppState) : AppState :=
  addNewsItem (mkNewsItem AuditCompleted neutral)
    (setActiveProposal (λ prev, withAudit result <$> prev) s).

(** ** The application as a transition system *)

Inductive Event : Type :=
  | Start (enabled : bool)
  | Tick (rnd : Q)
  | TileClick (x y : Z)
  | SelectTool (tool : BuildingType)
  | CloseSelection
  | Upgrade
  | ClaimReward
  | ConnectWallet
  | Swap (direction : Direction) (amount : Q)
  | Stake (amount : Q)
  | Unstake (amount : Q)
  | Vote (optionIndex : nat)
  | GoalGenerated (goalData : AIGoal)
  | NewsGenerated (text : string) (type : NewsType)
  | ProposalGenerated (title description : string)
      (options : list DAOOption) (soliditySnippet : option string)
      (dispatchDay : Z)
  | AuditGenerated (result : AuditResult).

(** The state after an event.  The start screen is the only thing that
    reacts before the game has started, and it disappears afterwards; the
    interval and the panels exist only once the game has started.  An
    exception inside a handler leaves the state as it was.

    [fetchNewGoal] and [fetchNews] test the AI switch when they start the
    request and apply the answer without a further test.  A state does not
    record the requests under way, so the test stands here where the answer
    arrives: the switch is written by [handleStart] alone and so has the
    same value at both moments (lemma [aiEnabled_react]).  In the same way
    the test of [isConnected], made before a proposal is requested, stands
    where the proposal arrives. *)
Definition react (e : Event) (s : AppState) : AppState :=
  match e with
  | Start enabled => if gameStarted s then s else handleStart enabled s
  | _ =>
      if negb (gameStarted s) then s
      else
        match e with
        | Start _ => s
        | Tick rnd =>
            if (Qle_bool 0 rnd && Qlt_bool rnd 1)%bool then tick rnd s else s
        | TileClick x y => default s (handleTileClick x y s)
        | SelectTool tool => handleSelectTool tool s
        | CloseSelection => onCloseSelection s
        | Upgrade => default s (handleUpgrade s)
        | ClaimReward => handleClaimReward s
        | ConnectWallet => handleConnectWallet s
        | Swap direction amount => handleSwap direction amount s
        | Stake amount => handleStake amount s
        | Unstake amount => handleUnstake amount s
        | Vote optionIndex => default s (handleVote optionIndex s)
        | GoalGenerated goalData =>
            if aiEnabled s then goalGenerated goalData s else s
        | NewsGenerated text type =>
            if aiEnabled s then newsGenerated text type s else s
        | ProposalGenerated title description options snippet dispatchDay =>
            if isConnected (web3State s)
            then proposalGenerated title description options snippet
                   dispatchDay s
            else s
        | AuditGenerated result => auditGenerated result s
        end
  end.

Definition run (events : list Event) (s : AppState) : AppState :=
  fold_left (λ st e, react e st) events s.

Inductive reachable : AppState -> Prop :=
  | reachable_init : reachable initialState
  | reachable_react (e : Event) (s : AppState) :
      reachable s -> reachable (react e s).

(** ** Properties of states *)

Definition occupied (t : TileData) : Prop := tile_buildingType t ≠ BNone.

(** Every tile carries a level, and the level is at least 1. *)
Definition levelsPositive (g : Grid) : Prop :=
  Forall (Forall (λ t, ∃ l, tile_level t = Some l ∧ (1 <= l)%Z)) g.

(** A selected position is inside the map and holds a building that is not
    a road. *)
Definition selectionValid (s : AppState) : Prop :=
  ∀ x y, selectedTilePos s = Some (x, y) →
    (0 <= x)%Z ∧ (0 <= y)%Z ∧
    ∃ t, getTile (grid s) x y = Some t ∧
         tile_buildingType t ≠ BNone ∧ tile_buildingType t ≠ Road.

Definition noSchoolOrHospital (g : Grid) : Prop :=
  Forall (Forall (λ t, tile_buildingType t ≠ School ∧
                       tile_buildingType t ≠ Hospital)) g.


(** Two states agree on everything outside the two token balances and the
    transaction log. *)
Definition sameOutsideStaking (s s' : AppState) : Prop :=
  gameStarted s' = gameStarted s ∧ aiEnabled s' = aiEnabled s
  ∧ grid s' = grid s ∧ stats s' = stats s
  ∧ selectedTool s' = selectedTool s
  ∧ selectedTilePos s' = selectedTilePos s
  ∧ currentGoal s' = currentGoal s ∧ newsFeed s' = newsFeed s
  ∧ activeProposal s' = activeProposal s
  ∧ gameModifiers s' = gameModifiers s
  ∧ isConnected (web3State s') = isConnected (web3State s)
  ∧ address (web3State s') = address (web3State s)
  ∧ skyPrice (web3State s') = skyPrice (web3State s)
  ∧ blockNumber (web3State s') = blockNumber (web3State s).

Record invariant (s : AppState) : Prop := mkInvariant {
  inv_levels : levelsPositive (grid s);
  inv_selection : selectionValid s;
  inv_taxRate : 0 <= taxRate (gameModifiers s);
  inv_growthRate : 0 <= growthRate (gameModifiers s)
}.

(** ** The deltas of a tick as the specification words them

    These definitions follow the text of the specification (section 4.2),
    not the code: sums over the tiles of the grid, with the level a tile
    carries. *)

Fixpoint sumQ (l : list Q) : Q :=
  match l with
  | [] => 0
  | q :: l' => q + sumQ l'
  end.

(** The level recorded in a tile. *)
Definition levelOf (t : TileData) : Z := default 1%Z (tile_level t).

(** Sum over the occupied tiles of [incomeGen(type) * level]. *)
Definition incomeSum (g : Grid) : Q :=
  sumQ ((λ t, cfg_incomeGen (BUILDINGS (tile_buildingType t))
              * inject_Z (levelOf t))
        <$> filter (λ t, tile_buildingType t ≠ BNone) (concat g)).

(** Sum over the occupied tiles of [popGen(type) * level]. *)
Definition popGrowthSum (g : Grid) : Q :=
  sumQ ((λ t, cfg_popGen (BUILDINGS (tile_buildingType t))
              * inject_Z (levelOf t))
        <$> filter (λ t, tile_buildingType t ≠ BNone) (concat g)).

(** Sum over the Residential tiles of [50 * level]. *)
Definition housingSum (g : Grid) : Q :=
  sumQ ((λ t, 50 * inject_Z (levelOf t))
        <$> filter (λ t, tile_buildingType t = Residential) (concat g)).

(** Number of occupied tiles whose building has type [b]. *)
Definition countOf (b : BuildingType) (g : Grid) : Z :=
  Z.of_nat
    (length (filter (λ t, tile_buildingType t ≠ BNone ∧ tile_buildingType t = b)
               (concat g))).

(** The target of a goal is reached by the statistics [st] on the grid [g]:
    the [>=] comparison on the field the target type names. *)
Definition targetReached (goal : AIGoal) (st : CityStats) (g : Grid) : Prop :=
  match goal_targetType goal with
  | T_money => goal_targetValue goal <= money st
  | T_population => goal_targetValue goal <= population st
  | T_building_count =>
      ∃ b, goal_buildingType goal = Some b ∧
           goal_targetValue goal <= inject_Z (countOf b g)
  end.

(** ** Sample runs *)

(** A started game with a school on tile (0, 0). *)
Definition schoolTown : AppState :=
  run [Start true; SelectTool School; TileClick 0 0] initialState.

(** A started game with a shop on tile (3, 4). *)
Definition shopTown : AppState :=
  run [Start true; SelectTool Commercial; TileClick 3 4] initialState.

(** A house is built, two days pass, and the house is bulldozed: ten
    residents and no housing. *)
Definition homelessTown : AppState :=
  run [Start true; SelectTool Residential; TileClick 0 0; Tick 0.5; Tick 0.5;
       SelectTool BNone; TileClick 0 0] initialState.

(** A goal that asks for a treasury of 500. *)
Definition moneyGoal : AIGoal :=
  mkAIGoal "Fill the treasury" T_money 500 None 300 false.


(** The goal [moneyGoal] in a game started with the AI features on. *)
Definition aiOnWithGoal : AppState :=
  run [Start true; GoalGenerated moneyGoal] initialState.

(** A house on tile (0, 0), upgraded once and selected. *)
Definition upgradedHouse : AppState :=
  run [Start true; SelectTool Residential; TileClick 0 0; TileClick 0 0;
       Upgrade] initialState.

(** The same town after a factory and a shop have been paid for: the
    level-2 house is selected again and 150 is left in the treasury. *)
Definition poorUpgradedHouse : AppState :=
  run [SelectTool Industrial; TileClick 1 0; SelectTool Commercial;
       TileClick 2 0; TileClick 0 0] upgradedHouse.

(** A house on tile (0, 0) and the house tool still in hand. *)
Definition houseBuilt : AppState :=
  run [Start true; SelectTool Residential; TileClick 0 0] initialState.

(** The same town with the bulldozer in hand. *)
Definition bulldozerInHand : AppState :=
  run [SelectTool BNone] houseBuilt.

(** A hospital is built, the wallet is connected and a proposal with a
    festival option arrives: 200 in the treasury. *)
Definition festivalVote : AppState :=
  run [Start true; SelectTool Hospital; TileClick 5 5; ConnectWallet;
       ProposalGenerated "Summer of Lights" "A festival or a budget cut."
         [mkDAOOption "Hold the festival" "Crowds arrive." festival;
          mkDAOOption "Cut the budget" "Belts tighten." austerity]
         None 1] initialState.

(** A connected wallet in a town with one house, one day after it was
    built: five residents. *)
Definition miningTown : AppState :=
  run [ConnectWallet; Tick 0.5] houseBuilt.

(** The upgraded house with a connected wallet and 40 SKY staked. *)
Definition stakedTown : AppState :=
  run [ConnectWallet; Stake 40] upgradedHouse.

(** A connected wallet holding the airdrop of 100 SKY. *)
Definition walletConnected : AppState :=
  run [Start true; ConnectWallet] initialState.

(** ** The two balances as doubles

    [skyBalance] and [stakedSky] are JavaScript numbers.  These are the
    transfers of [handleStake] and [handleUnstake] on the two balances
    alone, with the guard and the two operations of binary64. *)
Definition handleStake64 (amount skyBalance stakedSky : float)
  : float * float :=
  if PrimFloat.leb amount skyBalance
  then (PrimFloat.sub skyBalance amount, PrimFloat.add stakedSky amount)
  else (skyBalance, stakedSky).

Definition handleUnstake64 (amount skyBalance stakedSky : float)
  : float * float :=
  if PrimFloat.leb amount stakedSky
  then (PrimFloat.add skyBalance amount, PrimFloat.sub stakedSky amount)
  else (skyBalance, stakedSky).

(** The double nearest to 0.1. *)
Definition tenth64 : float := 0x1.999999999999ap-4%float.

(** ** Further properties of states *)

(** The grid is a square of [GRID_SIZE] rows of [GRID_SIZE] tiles, and the
    tile stored at row [y], column [x] records the position (x, y). *)
Definition wellFormedGrid (g : Grid) : Prop :=
  length g = Z.to_nat GRID_SIZE
  ∧ Forall (λ row, length row = Z.to_nat GRID_SIZE) g
  ∧ ∀ x y t, getTile g x y = Some t → tile_x t = x ∧ tile_y t = y.

Definition onMap (x y : Z) : Prop :=
  (0 <= x < GRID_SIZE)%Z ∧ (0 <= y < GRID_SIZE)%Z.

(** The two rolling logs stay within the sizes the slices give them. *)
Definition logsBounded (s : AppState) : Prop :=
  (length (newsFeed s) <= 13)%nat ∧ (length (transactions s) <= 20)%nat.

(** An active proposal is a binary choice. *)
Definition proposalBinary (s : AppState) : Prop :=
  ∀ p, activeProposal s = Some p →
    length (prop_options p) = 2%nat ∧ prop_status p = active.

(** A tick event that the interval really runs: the game has started and
    the random number is one [Math.random()] can return. *)
Definition tickRuns (e : Event) (s : AppState) : bool :=
  match e with
  | Tick rnd => gameStarted s && Qle_bool 0 rnd && Qlt_bool rnd 1
  | _ => false
  end.

(** The events that carry a token amount carry a non-negative one. *)
Definition amountNonneg (e : Event) : Prop :=
  match e with
  | Swap _ amount | Stake amount | Unstake amount => 0 <= amount
  | _ => True
  end.

(** The spend paths that test the treasury before they deduct. *)
Definition checkedSpend (e : Event) : Prop :=
  match e with
  | TileClick _ _ | Upgrade | Swap buy _ => True
  | _ => False
  end.

(** The modifier values the four vote effects and the initial state can
    produce. *)
Definition catalogModifiers (m : GameModifiers) : Prop :=
  (taxRate m == 1 ∨ taxRate m == 1.2 ∨ taxRate m == 0.8)
  ∧ (growthRate m == 1 ∨ growthRate m == 1.5 ∨ growthRate m == 0.8
     ∨ growthRate m == 2).

(** ** components/IsoMap.tsx

    The part of the map component that reads the grid: the road markings
    and the placement preview. *)

(** [grid[y][x].buildingType === BuildingType.Road]; reading a tile outside
    the arrays throws. *)
Definition isRoadAt (g : Grid) (x y : Z) : option bool :=
  t ← getTile g x y; Some (bool_decide (tile_buildingType t = Road)).

(** [a && b], where [b] is only evaluated when [a] holds. *)
Definition andThen (a : bool) (b : option bool) : option bool :=
  if a then b else Some false.

Record Connections : Type := mkConnections {
  hasUp : bool;
  hasDown : bool;
  hasLeft : bool;
  hasRight : bool
}.

(** The four neighbour tests of [RoadMarkings]. *)
Definition roadConnections (g : Grid) (x y : Z) : option Connections :=
  up ← andThen (0 <? y)%Z (isRoadAt g x (y - 1));
  down ← andThen (y <? GRID_SIZE - 1)%Z (isRoadAt g x (y + 1));
  left ← andThen (0 <? x)%Z (isRoadAt g (x - 1) y);
  right ← andThen (x <? GRID_SIZE - 1)%Z (isRoadAt g (x + 1) y);
  Some (mkConnections up down left right).

(** [[hasUp, hasDown, hasLeft, hasRight].filter(Boolean).length]. *)
Definition connections (c : Connections) : nat :=
  length (filter (λ b, b = true) [hasUp c; hasDown c; hasLeft c; hasRight c]).

(** [showPreview] of [IsoMap]. *)
Definition showPreview (hoveredTile : option (Z * Z)) (g : Grid)
    (hoveredTool : BuildingType) : option bool :=
  match hoveredTile with
  | None => Some false
  | Some (x, y) =>
      t ← getTile g x y;
      Some (bool_decide (tile_buildingType t = BNone)
            && bool_decide (hoveredTool ≠ BNone))
  end.

(** A road stands on the position (x, y) of the grid. *)
Definition roadOn (g : Grid) (x y : Z) : Prop :=
  ∃ t, getTile g x y = Some t ∧ tile_buildingType t = Road.

(** * Verification *)

(** Case analysis on the branches of the handlers. *)
Ltac crack_step :=
  match goal with
  | |- context [mbind _ ?o] =>
      destruct o eqn:?; cbn [mbind option_bind default]
  | |- context [if ?b then _ else _] => destruct b eqn:?
  | |- context [match ?x with _ => _ end] => destruct x eqn:?
  end.

Ltac crack_react :=
  unfold react, tick, handleTileClick, handleUpgrade, handleClaimReward,
    handleStart, handleSelectTool, onCloseSelection, handleConnectWallet,
    handleSwap, handleStake, handleUnstake, handleVote, applyEffect,
    goalGenerated, newsGenerated, proposalGenerated, auditGenerated;
  cbn [negb];
  repeat (crack_step; cbn [negb default mbind option_bind]).

(** ** Numbers *)

Lemma Qlt_bool_iff (a b : Q) : Qlt_bool a b = true ↔ a < b.
Proof.
  unfold Qlt_bool. rewrite negb_true_iff.
  destruct (Qle_bool b a) eqn:E.
  - apply Qle_bool_iff in E. split; [discriminate | intros H; lra].
  - split; [intros _ | reflexivity].
    destruct (Qlt_le_dec a b) as [H | H]; [exact H |].
    apply Qle_bool_iff in H. congruence.
Qed.

Lemma Qlt_bool_false (a b : Q) : Qlt_bool a b = false ↔ b <= a.
Proof.
  unfold Qlt_bool. rewrite negb_false_iff. apply Qle_bool_iff.
Qed.

Lemma Qle_bool_false (a b : Q) : Qle_bool a b = false ↔ b < a.
Proof.
  rewrite <- Qlt_bool_iff. unfold Qlt_bool.
  destruct (Qle_bool a b); simpl; split; congruence.
Qed.

(** ** The grid *)

Lemma getTile_Some (g : Grid) (x y : Z) (t : TileData) :
  getTile g x y = Some t →
  (0 <= x)%Z ∧ (0 <= y)%Z ∧
  ∃ row, g !! Z.to_nat y = Some row ∧ row !! Z.to_nat x = Some t.
Proof.
  unfold getTile. intros H.
  destruct (x <? 0)%Z eqn:Hx; [discriminate |].
  destruct (y <? 0)%Z eqn:Hy; [discriminate |].
  simpl in H. apply Z.ltb_ge in Hx, Hy.
  destruct (g !! Z.to_nat y) as [row |] eqn:Hrow; [| discriminate].
  simpl in H. eauto.
Qed.

Lemma getTile_setTile_eq (g : Grid) (x y : Z) (t t' : TileData) :
  getTile g x y = Some t → getTile (setTile g x y t') x y = Some t'.
Proof.
  intros H. destruct (getTile_Some _ _ _ _ H) as (Hx & Hy & row & Hrow & Ht).
  unfold getTile, setTile.
  replace (x <? 0)%Z with false by (symmetry; apply Z.ltb_ge; lia).
  replace (y <? 0)%Z with false by (symmetry; apply Z.ltb_ge; lia).
  cbn [orb]. rewrite list_lookup_alter_eq, Hrow. cbn.
  apply list_lookup_insert_eq. eapply lookup_lt_Some, Ht.
Qed.

Lemma getTile_setTile_ne (g : Grid) (x y x' y' : Z) (t : TileData) :
  (0 <= x)%Z → (0 <= y)%Z → (0 <= x')%Z → (0 <= y')%Z →
  (x', y') ≠ (x, y) →
  getTile (setTile g x y t) x' y' = getTile g x' y'.
Proof.
  intros Hx Hy Hx' Hy' Hne. unfold getTile, setTile.
  destruct ((x' <? 0)%Z || (y' <? 0)%Z)%bool; [reflexivity |].
  destruct (decide (Z.to_nat y = Z.to_nat y')) as [Ey | Ey].
  - rewrite <- Ey, list_lookup_alter_eq.
    destruct (g !! Z.to_nat y) as [row |]; [| reflexivity].
    cbn. apply list_lookup_insert_ne.
    intros Ex. apply Hne. f_equal; lia.
  - rewrite list_lookup_alter_ne by exact Ey. reflexivity.
Qed.

Lemma levelsPositive_setTile (g : Grid) (x y l : Z) (t : TileData) :
  levelsPositive g → tile_level t = Some l → (1 <= l)%Z →
  levelsPositive (setTile g x y t).
Proof.
  intros Hg Ht Hl. unfold levelsPositive, setTile.
  apply Forall_alter; [exact Hg |].
  intros row _ Hrow. apply Forall_insert; [exact Hrow |]. eauto.
Qed.

Lemma levelsPositive_getTile (g : Grid) (x y : Z) (t : TileData) :
  levelsPositive g → getTile g x y = Some t →
  ∃ l, tile_level t = Some l ∧ (1 <= l)%Z.
Proof.
  intros Hg H. destruct (getTile_Some _ _ _ _ H) as (_ & _ & row & Hrow & Ht).
  unfold levelsPositive in Hg.
  rewrite Forall_lookup in Hg. specialize (Hg _ _ Hrow).
  rewrite Forall_lookup in Hg. exact (Hg _ _ Ht).
Qed.

Lemma levelOr1_positive (t : TileData) (l : Z) :
  tile_level t = Some l → (1 <= l)%Z → levelOr1 t = l.
Proof.
  intros Ht Hl. unfold levelOr1. rewrite Ht.
  destruct (l =? 0)%Z eqn:E; [apply Z.eqb_eq in E; lia | reflexivity].
Qed.

Lemma levelsPositive_initial : levelsPositive createInitialGrid.
Proof.
  unfold levelsPositive, createInitialGrid.
  apply Forall_fmap, Forall_forall. intros y _.
  apply Forall_fmap, Forall_forall. intros x _.
  exists 1%Z. split; [reflexivity | lia].
Qed.

(** ** The invariant of the reachable states *)

Lemma invariant_frame (s s' : AppState) :
  grid s' = grid s → selectedTilePos s' = selectedTilePos s →
  gameModifiers s' = gameModifiers s →
  invariant s → invariant s'.
Proof.
  intros Hg Hsel Hm [H1 H2 H3 H4]. split.
  - rewrite Hg. exact H1.
  - unfold selectionValid. rewrite Hg, Hsel. exact H2.
  - rewrite Hm. exact H3.
  - rewrite Hm. exact H4.
Qed.

Lemma invariant_deselect (s s' : AppState) :
  grid s' = grid s → selectedTilePos s' = None →
  gameModifiers s' = gameModifiers s →
  invariant s → invariant s'.
Proof.
  intros Hg Hsel Hm [H1 _ H3 H4]. split.
  - rewrite Hg. exact H1.
  - intros x y E. rewrite Hsel in E. discriminate.
  - rewrite Hm. exact H3.
  - rewrite Hm. exact H4.
Qed.

Lemma invariant_initial : invariant initialState.
Proof.
  split.
  - apply levelsPositive_initial.
  - intros x y E. discriminate.
  - simpl. lra.
  - simpl. lra.
Qed.

Lemma invariant_tick (rnd : Q) (s : AppState) :
  invariant s → invariant (tick rnd s).
Proof.
  apply invariant_frame; unfold tick;
    destruct (isConnected (web3State s)); reflexivity.
Qed.

Lemma invariant_handleTileClick (x y : Z) (s s' : AppState) :
  handleTileClick x y s = Some s' → invariant s → invariant s'.
Proof.
  unfold handleTileClick. intros H Hinv.
  destruct (gameStarted s); cbn [negb] in H; [| congruence].
  destruct ((x <? 0)%Z || (GRID_SIZE <=? x)%Z || (y <? 0)%Z
            || (GRID_SIZE <=? y)%Z)%bool eqn:Hrange; [congruence |].
  destruct (getTile (grid s) x y) as [tile |] eqn:Htile; [| discriminate].
  cbn in H.
  destruct (getTile_Some _ _ _ _ Htile) as (Hx & Hy & _).
  destruct Hinv as [H1 H2 H3 H4].
  repeat case_bool_decide; cbn [andb] in H.
  all: repeat match type of H with
       | context [Qle_bool ?a ?b] => destruct (Qle_bool a b)
       end.
  all: try (destruct (selectedTilePos s) as [[sx sy] |] eqn:Hsel).
  all: simplify_eq; try (split; assumption).
  all: split; cbn; try assumption.
  all: try (eapply levelsPositive_setTile; [eassumption | reflexivity | lia]).
  all: try (intros ? ? ?; discriminate).
  all: intros x' y' E; cbn in E; try congruence.
  1, 2: simplify_eq; split; [lia |]; split; [lia |]; exists tile; auto.
  (* bulldozing a tile other than the selected one *)
  all: destruct (H2 _ _ E) as (Hx' & Hy' & t & Ht & Hocc).
  all: split; [exact Hx' |]; split; [exact Hy' |].
  all: exists t; split; [| exact Hocc].
  all: cbn; rewrite getTile_setTile_ne; try assumption; congruence.
Qed.

Lemma invariant_handleUpgrade (s s' : AppState) :
  handleUpgrade s = Some s' → invariant s → invariant s'.
Proof.
  unfold handleUpgrade. intros H Hinv.
  destruct (selectedTilePos s) as [[x y] |] eqn:Hsel; [| congruence].
  destruct (getTile (grid s) x y) as [tile |] eqn:Htile; [| discriminate].
  cbn in H.
  destruct (Qle_bool _ _); simplify_eq;
    [| revert Hinv; apply invariant_frame; reflexivity].
  destruct Hinv as [H1 H2 H3 H4].
  destruct (levelsPositive_getTile _ _ _ _ H1 Htile) as (l & Hl & Hl1).
  destruct (getTile_Some _ _ _ _ Htile) as (Hx & Hy & _).
  split; cbn; try assumption.
  - eapply levelsPositive_setTile; [exact H1 | reflexivity |].
    rewrite (levelOr1_positive _ _ Hl Hl1). lia.
  - intros x' y' E. cbn in E. rewrite Hsel in E. simplify_eq.
    destruct (H2 _ _ Hsel) as (_ & _ & t & Ht & Hocc).
    rewrite Htile in Ht. simplify_eq.
    split; [exact Hx |]. split; [exact Hy |].
    exists (withLevel (levelOr1 t + 1) t). split; [| exact Hocc].
    cbn. eapply getTile_setTile_eq, Htile.
Qed.

Lemma invariant_applyEffect (e : EffectType) (s : AppState) :
  invariant s → invariant (applyEffect e s).
Proof.
  intros [H1 H2 H3 H4].
  destruct e; split; cbn; try assumption; lra.
Qed.

Lemma invariant_handleVote (i : nat) (s s' : AppState) :
  handleVote i s = Some s' → invariant s → invariant s'.
Proof.
  unfold handleVote. intros H Hinv.
  destruct (activeProposal s) as [proposal |]; [| congruence].
  destruct (prop_options proposal !! i) as [choice |]; [| discriminate].
  cbn in H. simplify_eq.
  eapply (invariant_frame (applyEffect (opt_effectType choice) _));
    [reflexivity .. |].
  apply invariant_applyEffect.
  revert Hinv. apply invariant_frame; reflexivity.
Qed.

Lemma invariant_react (e : Event) (s : AppState) :
  invariant s → invariant (react e s).
Proof.
  intros Hinv. unfold react.
  destruct e; destruct (gameStarted s) eqn:Hstarted; cbn [negb]; try exact Hinv.
  - revert Hinv. apply invariant_frame; reflexivity.
  - destruct (_ && _)%bool; [apply invariant_tick |]; exact Hinv.
  - destruct (handleTileClick x y s) as [s' |] eqn:H; [| exact Hinv].
    exact (invariant_handleTileClick _ _ _ _ H Hinv).
  - revert Hinv. apply invariant_deselect; reflexivity.
  - revert Hinv. apply invariant_deselect; reflexivity.
  - destruct (handleUpgrade s) as [s' |] eqn:H; [| exact Hinv].
    exact (invariant_handleUpgrade _ _ H Hinv).
  - unfold handleClaimReward. destruct (currentGoal s) as [goal |];
      [destruct (goal_completed goal) |]; try exact Hinv.
    revert Hinv. apply invariant_frame; reflexivity.
  - revert Hinv. apply invariant_frame; reflexivity.
  - unfold handleSwap. destruct direction; destruct (Qle_bool _ _);
      try exact Hinv; revert Hinv; apply invariant_frame; reflexivity.
  - unfold handleStake. destruct (Qle_bool _ _); [| exact Hinv].
    revert Hinv. apply invariant_frame; reflexivity.
  - unfold handleUnstake. destruct (Qle_bool _ _); [| exact Hinv].
    revert Hinv. apply invariant_frame; reflexivity.
  - destruct (handleVote optionIndex s) as [s' |] eqn:H; [| exact Hinv].
    exact (invariant_handleVote _ _ _ H Hinv).
  - destruct (aiEnabled s); [| exact Hinv].
    revert Hinv. apply invariant_frame; reflexivity.
  - destruct (aiEnabled s); [| exact Hinv].
    revert Hinv. apply invariant_frame; reflexivity.
  - destruct (isConnected (web3State s)); [| exact Hinv].
    unfold proposalGenerated. destruct (2 <=? length options)%nat;
      [| exact Hinv].
    revert Hinv. apply invariant_frame; reflexivity.
  - revert Hinv. apply invariant_frame; reflexivity.
Qed.

Lemma reachable_invariant (s : AppState) : reachable s → invariant s.
Proof.
  induction 1 as [| e s _ IH].
  - apply invariant_initial.
  - apply invariant_react, IH.
Qed.

(** ** Runs *)

Lemma reachable_run (events : list Event) (s : AppState) :
  reachable s → reachable (run events s).
Proof.
  revert s. induction events as [| e events IH]; intros s Hs.
  - exact Hs.
  - cbn. apply IH, reachable_react, Hs.
Qed.


(** ** The deltas of a tick *)

Lemma levelsPositive_concat (g : Grid) :
  levelsPositive g →
  Forall (λ t, ∃ l, tile_level t = Some l ∧ (1 <= l)%Z) (concat g).
Proof. intros H. apply Forall_concat. exact H. Qed.

Lemma levelOr1_levelOf (t : TileData) :
  (∃ l, tile_level t = Some l ∧ (1 <= l)%Z) → levelOr1 t = levelOf t.
Proof.
  intros (l & Hl & Hl1). rewrite (levelOr1_positive _ _ Hl Hl1).
  unfold levelOf. rewrite Hl. reflexivity.
Qed.

Section Scan.
Let positive (t : TileData) : Prop :=
  ∃ l, tile_level t = Some l ∧ (1 <= l)%Z.
Let occ (t : TileData) : Prop := tile_buildingType t ≠ BNone.
Let income (t : TileData) : Q :=
  cfg_incomeGen (BUILDINGS (tile_buildingType t)) * inject_Z (levelOf t).
Let growth (t : TileData) : Q :=
  cfg_popGen (BUILDINGS (tile_buildingType t)) * inject_Z (levelOf t).

Lemma scan_income (l : list TileData) :
  Forall positive l → ∀ a b m,
  fst (fst (fold_left scanTile l (a, b, m)))
  == a + sumQ (income <$> filter occ l).
Proof.
  induction 1 as [| t l Ht _ IH]; intros a b m.
  - cbn. lra.
  - cbn [fold_left]. unfold scanTile at 2.
    destruct (decide (tile_buildingType t = BNone)) as [E | E].
    + rewrite IH, filter_cons_False by (unfold occ; tauto). reflexivity.
    + rewrite IH, filter_cons_True by exact E.
      rewrite (levelOr1_levelOf t Ht). cbn [fmap list_fmap sumQ].
      fold (income t). lra.
Qed.

Lemma scan_growth (l : list TileData) :
  Forall positive l → ∀ a b m,
  snd (fst (fold_left scanTile l (a, b, m)))
  == b + sumQ (growth <$> filter occ l).
Proof.
  induction 1 as [| t l Ht _ IH]; intros a b m.
  - cbn. lra.
  - cbn [fold_left]. unfold scanTile at 2.
    destruct (decide (tile_buildingType t = BNone)) as [E | E].
    + rewrite IH, filter_cons_False by (unfold occ; tauto). reflexivity.
    + rewrite IH, filter_cons_True by exact E.
      rewrite (levelOr1_levelOf t Ht). cbn [fmap list_fmap sumQ].
      fold (growth t). lra.
Qed.

Lemma cap_fold (l : list TileData) :
  Forall positive l → ∀ a,
  fold_left capTile l a
  == a + sumQ ((λ t, 50 * inject_Z (levelOf t))
               <$> filter (λ t, tile_buildingType t = Residential) l).
Proof.
  induction 1 as [| t l Ht _ IH]; intros a.
  - cbn. lra.
  - cbn [fold_left]. unfold capTile at 2.
    destruct (decide (tile_buildingType t = Residential)) as [E | E].
    + rewrite IH, filter_cons_True by exact E.
      rewrite (levelOr1_levelOf t Ht). cbn [fmap list_fmap sumQ]. lra.
    + rewrite IH, filter_cons_False by exact E. reflexivity.
Qed.
End Scan.

Lemma scanGrid_income (g : Grid) :
  levelsPositive g → fst (fst (scanGrid g)) == incomeSum g.
Proof.
  intros H. unfold scanGrid, incomeSum.
  rewrite scan_income by (apply levelsPositive_concat, H). lra.
Qed.

Lemma scanGrid_growth (g : Grid) :
  levelsPositive g → snd (fst (scanGrid g)) == popGrowthSum g.
Proof.
  intros H. unfold scanGrid, popGrowthSum.
  rewrite scan_growth by (apply levelsPositive_concat, H). lra.
Qed.

Lemma housingCapOf_sum (g : Grid) :
  levelsPositive g → housingCapOf g == housingSum g.
Proof.
  intros H. unfold housingCapOf, housingSum.
  rewrite cap_fold by (apply levelsPositive_concat, H). lra.
Qed.

Lemma stats_tick (rnd : Q) (s : AppState) : stats (tick rnd s) = nextStats s.
Proof. unfold tick. destruct (isConnected (web3State s)); reflexivity. Qed.

Lemma grid_tick (rnd : Q) (s : AppState) : grid (tick rnd s) = grid s.
Proof. unfold tick. destruct (isConnected (web3State s)); reflexivity. Qed.

Lemma currentGoal_tick (rnd : Q) (s : AppState) :
  currentGoal (tick rnd s) = checkGoal s (nextStats s).
Proof. unfold tick. destruct (isConnected (web3State s)); reflexivity. Qed.

(** C3.  On a grid whose tiles all carry a level of at least 1, a tick
    computes: income = (sum over the occupied tiles of incomeGen * level)
    * taxRate; popGrowth = (sum over the occupied tiles of popGen * level)
    * growthRate, multiplied further by (1 + staked / 1000) exactly when
    staked > 0; housingCap = sum over the Residential tiles of 50 * level;
    and the tick stores money + income, the population computed from
    popGrowth and housingCap, and day + 1. *)
Theorem C3_tick_deltas (rnd : Q) (s : AppState) :
  levelsPositive (grid s) →
  let staked := stakedSky (web3State s) in
  dailyIncomeOf s == incomeSum (grid s) * taxRate (gameModifiers s)
  ∧ (0 < staked →
     dailyPopGrowthOf s
     == popGrowthSum (grid s) * growthRate (gameModifiers s)
        * (1 + staked / 1000))
  ∧ (staked <= 0 →
     dailyPopGrowthOf s
     == popGrowthSum (grid s) * growthRate (gameModifiers s))
  ∧ housingCapOf (grid s) == housingSum (grid s)
  ∧ money (stats (tick rnd s)) = money (stats s) + dailyIncomeOf s
  ∧ population (stats (tick rnd s))
    = nextPopulation (population (stats s)) (dailyPopGrowthOf s)
        (housingCapOf (grid s))
  ∧ day (stats (tick rnd s)) = (day (stats s) + 1)%Z.
Proof.
  intros Hlev staked.
  split; [| split; [| split; [| split]]].
  - unfold dailyIncomeOf. cbn zeta. rewrite scanGrid_income by exact Hlev.
    reflexivity.
  - intros Hpos. unfold dailyPopGrowthOf. cbn zeta.
    apply Qlt_bool_iff in Hpos. fold staked. rewrite Hpos.
    rewrite scanGrid_growth by exact Hlev. reflexivity.
  - intros Hneg. unfold dailyPopGrowthOf. cbn zeta.
    apply Qlt_bool_false in Hneg. fold staked. rewrite Hneg.
    rewrite scanGrid_growth by exact Hlev. reflexivity.
  - apply housingCapOf_sum, Hlev.
  - rewrite stats_tick. repeat split.
Qed.

Lemma C3_tick_deltas_witness :
  levelsPositive (grid stakedTown)
  ∧ 0 < stakedSky (web3State stakedTown)
  ∧ popGrowthSum (grid stakedTown) == 10
  ∧ dailyPopGrowthOf stakedTown
    == popGrowthSum (grid stakedTown) * growthRate (gameModifiers stakedTown)
       * (1 + stakedSky (web3State stakedTown) / 1000)
  ∧ dailyPopGrowthOf stakedTown == 10.4
  ∧ housingCapOf (grid stakedTown) == 100
  ∧ day (stats (tick 0.5 stakedTown)) = 2%Z.
Proof.
  assert (Hr : reachable stakedTown)
    by (do 2 apply reachable_run; apply reachable_init).
  assert (Hlev : levelsPositive (grid stakedTown))
    by exact (inv_levels _ (reachable_invariant _ Hr)).
  assert (Hpos : 0 < stakedSky (web3State stakedTown))
    by (vm_compute; reflexivity).
  destruct (C3_tick_deltas 0.5 stakedTown Hlev)
    as (_ & Hgrowth & _ & _ & _ & _ & Hday).
  split; [exact Hlev |]. split; [exact Hpos |].
  split; [vm_compute; reflexivity |].
  split; [exact (Hgrowth Hpos) |].
  split; [vm_compute; reflexivity |]. split; [vm_compute; reflexivity |].
  rewrite Hday. vm_compute. reflexivity.
Defined.

(** ** Passive income *)

Lemma sumQ_nonneg (l : list Q) : Forall (λ q, 0 <= q) l → 0 <= sumQ l.
Proof.
  induction 1 as [| q l Hq _ IH]; cbn; lra.
Qed.

Lemma incomeGen_nonneg (b : BuildingType) :
  b ≠ School → b ≠ Hospital → 0 <= cfg_incomeGen (BUILDINGS b).
Proof.
  intros H1 H2. destruct b; cbn; try lra; congruence.
Qed.

Lemma incomeSum_nonneg (g : Grid) :
  levelsPositive g → noSchoolOrHospital g → 0 <= incomeSum g.
Proof.
  intros Hlev Hno. unfold incomeSum.
  apply sumQ_nonneg, Forall_fmap.
  apply levelsPositive_concat in Hlev.
  unfold noSchoolOrHospital in Hno. apply Forall_concat in Hno.
  rewrite Forall_forall in Hlev, Hno. apply Forall_forall. intros t Ht.
  apply list_elem_of_filter in Ht. destruct Ht as [_ Ht].
  destruct (Hlev t Ht) as (l & Hl & Hl1).
  destruct (Hno t Ht) as [H1 H2].
  cbn. apply Qmult_le_0_compat.
  - apply incomeGen_nonneg; assumption.
  - unfold levelOf. rewrite Hl. cbn.
    change 0 with (inject_Z 0). rewrite <- Zle_Qle. lia.
Qed.

(** C1, as amended.  From a reachable state whose grid holds no School and
    no Hospital, a tick stores money + income with income >= 0, so the
    money does not decrease. *)
Theorem C1_passive_income (rnd : Q) (s : AppState) :
  reachable s → noSchoolOrHospital (grid s) →
  money (stats (tick rnd s)) = money (stats s) + dailyIncomeOf s
  ∧ 0 <= dailyIncomeOf s
  ∧ money (stats s) <= money (stats (tick rnd s)).
Proof.
  intros Hreach Hno.
  destruct (reachable_invariant s Hreach) as [Hlev _ Htax _].
  assert (Hinc : 0 <= dailyIncomeOf s).
  { unfold dailyIncomeOf. cbn zeta. rewrite scanGrid_income by exact Hlev.
    apply Qmult_le_0_compat; [apply incomeSum_nonneg |]; assumption. }
  rewrite stats_tick. cbn. split; [reflexivity |]. split; [exact Hinc | lra].
Qed.

Lemma noSchoolOrHospital_check (g : Grid) :
  forallb (forallb (λ t,
    negb (bool_decide (tile_buildingType t = School))
    && negb (bool_decide (tile_buildingType t = Hospital)))) g = true →
  noSchoolOrHospital g.
Proof.
  intros H. unfold noSchoolOrHospital.
  apply Forall_forall. intros row Hrow. apply Forall_forall. intros t Ht.
  rewrite forallb_forall in H.
  apply list_elem_of_In in Hrow. specialize (H _ Hrow).
  rewrite forallb_forall in H.
  apply list_elem_of_In in Ht. specialize (H _ Ht).
  apply andb_true_iff in H. destruct H as [H1 H2].
  apply negb_true_iff, bool_decide_eq_false in H1, H2. tauto.
Qed.

Lemma C1_passive_income_witness :
  reachable shopTown ∧ noSchoolOrHospital (grid shopTown)
  ∧ money (stats (tick 0.5 shopTown)) == 815
  ∧ money (stats shopTown) <= money (stats (tick 0.5 shopTown)).
Proof.
  assert (Hr : reachable shopTown) by apply reachable_run, reachable_init.
  assert (Hn : noSchoolOrHospital (grid shopTown))
    by (apply noSchoolOrHospital_check; vm_compute; reflexivity).
  split; [exact Hr |]. split; [exact Hn |].
  destruct (C1_passive_income 0.5 shopTown Hr Hn) as (_ & _ & Hle).
  split; [vm_compute; reflexivity | exact Hle].
Defined.

(** C1, as the claim states it, fails: with one school on the map a tick
    takes 5 out of the treasury. *)
Lemma C1_counterexample :
  reachable schoolTown
  ∧ money (stats schoolTown) == 500
  ∧ money (stats (tick 0.5 schoolTown)) == 495
  ∧ ¬ (money (stats schoolTown) <= money (stats (tick 0.5 schoolTown))).
Proof.
  split; [apply reachable_run, reachable_init |].
  split; [vm_compute; reflexivity |].
  split; [vm_compute; reflexivity |].
  vm_compute. intros H. apply H. reflexivity.
Qed.

(** ** Population *)

Lemma limitPop_le (prior dailyPopGrowth housingCap : Q) :
  limitPop prior dailyPopGrowth housingCap <= housingCap.
Proof.
  unfold limitPop. cbn zeta.
  destruct (Qlt_bool housingCap (prior + dailyPopGrowth)) eqn:E.
  - lra.
  - apply Qlt_bool_false in E. exact E.
Qed.

(** C2.  In every tick the new population, after the step that limits it
    to the housing capacity, is at most the housing capacity; and when the
    housing capacity is 0 and the prior population is positive, the
    population the tick stores is max(0, prior - 5).  In every other case
    the tick stores the limited value, which is at most the housing
    capacity. *)
Theorem C2_population_clamp (rnd : Q) (s : AppState) :
  let housingCap := housingCapOf (grid s) in
  let prior := population (stats s) in
  let new := population (stats (tick rnd s)) in
  limitPop prior (dailyPopGrowthOf s) housingCap <= housingCap
  ∧ (housingCap == 0 → 0 < prior → new = Qmax 0 (prior - 5))
  ∧ (¬ (housingCap == 0 ∧ 0 < prior) →
     new = limitPop prior (dailyPopGrowthOf s) housingCap
     ∧ new <= housingCap).
Proof.
  intros housingCap prior new. subst new.
  split; [apply limitPop_le |].
  rewrite stats_tick. cbn.
  fold housingCap prior. unfold nextPopulation. cbn zeta.
  destruct (Qeq_bool housingCap 0) eqn:Hcap;
    destruct (Qlt_bool 0 prior) eqn:Hprior; cbn [andb].
  - split; [reflexivity |]. intros H. exfalso. apply H.
    split; [apply Qeq_bool_eq, Hcap | apply Qlt_bool_iff, Hprior].
  - split; [| intros _; split; [reflexivity | apply limitPop_le]].
    intros _ H. apply Qlt_bool_iff in H. congruence.
  - split; [| intros _; split; [reflexivity | apply limitPop_le]].
    intros H. apply Qeq_eq_bool in H. congruence.
  - split; [| intros _; split; [reflexivity | apply limitPop_le]].
    intros H. apply Qeq_eq_bool in H. congruence.
Qed.

Lemma C2_population_clamp_witness :
  housingCapOf (grid homelessTown) == 0
  ∧ 0 < population (stats homelessTown)
  ∧ limitPop (population (stats homelessTown))
      (dailyPopGrowthOf homelessTown) (housingCapOf (grid homelessTown))
    <= housingCapOf (grid homelessTown)
  ∧ population (stats (tick 0.5 homelessTown))
    = Qmax 0 (population (stats homelessTown) - 5)
  ∧ ¬ (housingCapOf (grid upgradedHouse) == 0
       ∧ 0 < population (stats upgradedHouse))
  ∧ population (stats (tick 0.5 upgradedHouse))
    <= housingCapOf (grid upgradedHouse).
Proof.
  assert (H1 : housingCapOf (grid homelessTown) == 0)
    by (vm_compute; reflexivity).
  assert (H2 : 0 < population (stats homelessTown))
    by (vm_compute; reflexivity).
  assert (H3 : ¬ (housingCapOf (grid upgradedHouse) == 0
                  ∧ 0 < population (stats upgradedHouse)))
    by (intros [H _]; vm_compute in H; discriminate).
  split; [exact H1 |]. split; [exact H2 |].
  split; [exact (proj1 (C2_population_clamp 0.5 homelessTown)) |].
  split; [exact (proj1 (proj2 (C2_population_clamp 0.5 homelessTown)) H1 H2) |].
  split; [exact H3 |].
  exact (proj2 (proj2 (proj2 (C2_population_clamp 0.5 upgradedHouse)) H3)).
Defined.

(** Scenario 3 of the specification: ten residents and no housing.  The
    value after the limiting step is 0, and the tick stores max(0, 10 - 5)
    = 5; the stored value is above the housing capacity 0, the bound being
    that of the limiting step. *)
Lemma scenario3_no_housing :
  reachable homelessTown
  ∧ housingCapOf (grid homelessTown) == 0
  ∧ population (stats homelessTown) == 10
  ∧ limitPop (population (stats homelessTown))
      (dailyPopGrowthOf homelessTown) (housingCapOf (grid homelessTown))
    == 0
  ∧ population (stats (tick 0.5 homelessTown)) == 5.
Proof.
  split; [apply reachable_run, reachable_init |].
  repeat (split; [vm_compute; reflexivity |]).
  vm_compute. reflexivity.
Qed.

(** ** Goals *)

Lemma scan_counts (l : list TileData) (b : BuildingType) :
  ∀ a p (m : gmap BuildingType Z),
  default 0%Z (snd (fold_left scanTile l (a, p, m)) !! b)
  = (default 0 (m !! b)
     + Z.of_nat
         (length (filter (λ t, tile_buildingType t ≠ BNone
                               ∧ tile_buildingType t = b) l)))%Z.
Proof.
  induction l as [| t l IH]; intros a p m.
  - cbn. lia.
  - cbn [fold_left]. unfold scanTile at 2.
    destruct (decide (tile_buildingType t = BNone)) as [E | E].
    + rewrite IH, filter_cons_False by tauto. reflexivity.
    + rewrite IH. destruct (decide (tile_buildingType t = b)) as [Eb | Eb].
      * rewrite filter_cons_True by tauto.
        rewrite Eb, lookup_insert_eq. cbn [default length]. unfold id. lia.
      * rewrite filter_cons_False by tauto.
        rewrite lookup_insert_ne by exact Eb. reflexivity.
Qed.

Lemma scanGrid_counts (g : Grid) (b : BuildingType) :
  default 0%Z (snd (scanGrid g) !! b) = countOf b g.
Proof.
  unfold scanGrid, countOf. rewrite scan_counts, lookup_empty. reflexivity.
Qed.

Lemma goalIsMet_iff (goal : AIGoal) (st : CityStats) (g : Grid) :
  goalIsMet goal st (snd (scanGrid g)) = true ↔ targetReached goal st g.
Proof.
  unfold goalIsMet, targetReached.
  destruct (goal_targetType goal); try apply Qle_bool_iff.
  destruct (goal_buildingType goal) as [b |].
  - rewrite scanGrid_counts, Qle_bool_iff. split.
    + intros H. exists b. split; [reflexivity | exact H].
    + intros (b' & Hb & H). simplify_eq. exact H.
  - split; [discriminate | intros (b & Hb & _); discriminate].
Qed.






(** The check of the tick is itself gated on the AI switch: on any state
    with the AI features off, reachable or not, it leaves the goal slot as
    it is. *)
Lemma checkGoal_ai_off (rnd : Q) (s : AppState) :
  aiEnabled s = false → currentGoal (tick rnd s) = currentGoal s.
Proof.
  intros Hai. rewrite currentGoal_tick. unfold checkGoal. rewrite Hai.
  destruct (currentGoal s); reflexivity.
Qed.



(** ** Upgrades *)

Lemma upgradeCostOf_level (tile : TileData) (level : Z) :
  tile_level tile = Some level → (1 <= level)%Z →
  upgradeCostOf tile
  = Qfloor (cfg_cost (BUILDINGS (tile_buildingType tile)) * 1.5 ^ level).
Proof.
  intros Hl Hl1. unfold upgradeCostOf. cbn zeta.
  rewrite (levelOr1_positive _ _ Hl Hl1). reflexivity.
Qed.

(** C5.  In a reachable state the tile that [handleUpgrade] works on is
    occupied (it is the selected tile; without a selection nothing
    happens), and with cost = floor(cost(type) * 1.5^level): if money <
    cost, the grid and the statistics stay as they are (only the notice
    goes to the news feed); if money >= cost, exactly cost is deducted, the
    tile keeps its building type and gets level + 1, and no other tile
    changes.  For a Residential tile of level 2 the cost is 225. *)
Theorem C5_upgrade (s : AppState) :
  reachable s →
  (selectedTilePos s = None → handleUpgrade s = Some s)
  ∧ (∀ x y, selectedTilePos s = Some (x, y) →
     ∃ tile level s',
       getTile (grid s) x y = Some tile
       ∧ occupied tile
       ∧ tile_level tile = Some level
       ∧ handleUpgrade s = Some s'
       ∧ let cost :=
           inject_Z
             (Qfloor (cfg_cost (BUILDINGS (tile_buildingType tile))
                      * 1.5 ^ level)) in
         (money (stats s) < cost →
          s' = addNewsItem (mkNewsItem InsufficientUpgrade negative) s
          ∧ grid s' = grid s ∧ stats s' = stats s)
         ∧ (cost <= money (stats s) →
            money (stats s') = money (stats s) - cost
            ∧ population (stats s') = population (stats s)
            ∧ day (stats s') = day (stats s)
            ∧ (∃ tile',
                 getTile (grid s') x y = Some tile'
                 ∧ tile_level tile' = Some (level + 1)%Z
                 ∧ tile_buildingType tile' = tile_buildingType tile)
            ∧ (∀ x' y', (0 <= x')%Z → (0 <= y')%Z → (x', y') ≠ (x, y) →
               getTile (grid s') x' y' = getTile (grid s) x' y')))
  ∧ (∀ tile, tile_buildingType tile = Residential →
     tile_level tile = Some 2%Z → upgradeCostOf tile = 225%Z).
Proof.
  intros Hreach. destruct (reachable_invariant s Hreach) as [Hlev Hsel _ _].
  split; [| split].
  - intros H. unfold handleUpgrade. rewrite H. reflexivity.
  - intros x y Hpos.
    destruct (Hsel x y Hpos) as (Hx & Hy & tile & Htile & Hocc & _).
    destruct (levelsPositive_getTile _ _ _ _ Hlev Htile) as (level & Hl & Hl1).
    unfold handleUpgrade. rewrite Hpos, Htile. cbn [mbind option_bind].
    rewrite (upgradeCostOf_level _ _ Hl Hl1).
    rewrite (levelOr1_positive _ _ Hl Hl1).
    remember (inject_Z (Qfloor (cfg_cost (BUILDINGS (tile_buildingType tile))
                                * 1.5 ^ level))) as cost eqn:Hcost.
    destruct (Qle_bool cost (money (stats s))) eqn:Hfunds.
    + eexists tile, level, _.
      repeat (split; [first [exact Htile | exact Hocc | exact Hl
                            | reflexivity] |]).
      apply Qle_bool_iff in Hfunds. cbn zeta. rewrite <- Hcost.
      split; [intros H; lra |]. intros _.
      repeat (split; [reflexivity |]). split.
      * exists (withLevel (level + 1) tile). cbn.
        split; [eapply getTile_setTile_eq, Htile | split; reflexivity].
      * intros x' y' Hx' Hy' Hne. cbn.
        apply getTile_setTile_ne; assumption.
    + eexists tile, level, _.
      repeat (split; [first [exact Htile | exact Hocc | exact Hl
                            | reflexivity] |]).
      apply Qle_bool_false in Hfunds. cbn zeta. rewrite <- Hcost.
      split; [intros _; repeat split | intros H; lra].
  - intros tile Htype Hl. unfold upgradeCostOf, levelOr1.
    rewrite Htype, Hl. reflexivity.
Qed.

Lemma C5_upgrade_witness :
  reachable poorUpgradedHouse
  ∧ selectedTilePos poorUpgradedHouse = Some (0, 0)%Z
  ∧ ∃ tile s',
      getTile (grid poorUpgradedHouse) 0 0 = Some tile
      ∧ tile_buildingType tile = Residential
      ∧ tile_level tile = Some 2%Z
      ∧ money (stats poorUpgradedHouse) < inject_Z (upgradeCostOf tile)
      ∧ handleUpgrade poorUpgradedHouse = Some s'
      ∧ grid s' = grid poorUpgradedHouse
      ∧ stats s' = stats poorUpgradedHouse.
Proof.
  assert (Hr : reachable poorUpgradedHouse)
    by (do 2 apply reachable_run; apply reachable_init).
  assert (Hsel : selectedTilePos poorUpgradedHouse = Some (0, 0)%Z)
    by (vm_compute; reflexivity).
  split; [exact Hr |]. split; [exact Hsel |].
  destruct (C5_upgrade poorUpgradedHouse Hr) as (_ & H & _).
  destruct (H _ _ Hsel)
    as (tile & level & s' & Htile & _ & Hl & Hup & Hlow & _).
  assert (Htile' : getTile (grid poorUpgradedHouse) 0 0
                   = Some (mkTileData 0 0 Residential None (Some 2%Z)))
    by (vm_compute; reflexivity).
  rewrite Htile' in Htile. injection Htile as <-.
  injection Hl as <-.
  exists (mkTileData 0 0 Residential None (Some 2%Z)), s'.
  split; [exact Htile' |]. split; [reflexivity |]. split; [reflexivity |].
  assert (Hpoor : money (stats poorUpgradedHouse) < 225)
    by (vm_compute; reflexivity).
  split; [exact Hpoor |]. split; [exact Hup |].
  destruct (Hlow Hpoor) as (_ & Hg & Hst). split; assumption.
Defined.

(** ** Governance votes *)

(** C6.  Without an active proposal a vote changes nothing.  With one, the
    vote for an option of the proposal clears the proposal slot at once and
    overwrites the modifiers by the effect of the option: tax_break sets
    taxRate to 1.2, population_boom sets growthRate to 1.5, austerity sets
    both to 0.8, and festival sets growthRate to 2.0 and takes exactly 500
    from the treasury, whatever the treasury holds. *)
Theorem C6_vote (optionIndex : nat) (s : AppState) :
  (activeProposal s = None → handleVote optionIndex s = Some s)
  ∧ (∀ proposal choice,
     activeProposal s = Some proposal →
     prop_options proposal !! optionIndex = Some choice →
     ∃ s', handleVote optionIndex s = Some s'
       ∧ activeProposal s' = None
       ∧ grid s' = grid s
       ∧ population (stats s') = population (stats s)
       ∧ day (stats s') = day (stats s)
       ∧ match opt_effectType choice with
         | tax_break =>
             taxRate (gameModifiers s') = 1.2
             ∧ growthRate (gameModifiers s') = growthRate (gameModifiers s)
             ∧ money (stats s') = money (stats s)
         | population_boom =>
             taxRate (gameModifiers s') = taxRate (gameModifiers s)
             ∧ growthRate (gameModifiers s') = 1.5
             ∧ money (stats s') = money (stats s)
         | austerity =>
             taxRate (gameModifiers s') = 0.8
             ∧ growthRate (gameModifiers s') = 0.8
             ∧ money (stats s') = money (stats s)
         | festival =>
             taxRate (gameModifiers s') = taxRate (gameModifiers s)
             ∧ growthRate (gameModifiers s') = 2.0
             ∧ money (stats s') = money (stats s) - 500
         end).
Proof.
  split.
  - intros H. unfold handleVote. rewrite H. reflexivity.
  - intros proposal choice Hprop Hchoice.
    unfold handleVote. rewrite Hprop, Hchoice. cbn [mbind option_bind].
    eexists. split; [reflexivity |].
    destruct (opt_effectType choice); repeat split.
Qed.

Lemma C6_vote_witness :
  ∃ proposal choice s',
    activeProposal festivalVote = Some proposal
    ∧ prop_options proposal !! 0%nat = Some choice
    ∧ opt_effectType choice = festival
    ∧ handleVote 0 festivalVote = Some s'
    ∧ activeProposal s' = None
    ∧ growthRate (gameModifiers s') = 2.0
    ∧ money (stats festivalVote) == 200
    ∧ money (stats s') == -300.
Proof.
  set (choice := mkDAOOption "Hold the festival" "Crowds arrive." festival).
  set (proposal :=
         mkDAOProposal "Summer of Lights" "A festival or a budget cut."
           [choice; mkDAOOption "Cut the budget" "Belts tighten." austerity]
           6 (0, 0)%Z active None None).
  assert (Hprop : activeProposal festivalVote = Some proposal)
    by (vm_compute; reflexivity).
  assert (Hchoice : prop_options proposal !! 0%nat = Some choice)
    by reflexivity.
  destruct (proj2 (C6_vote 0 festivalVote) proposal choice Hprop Hchoice)
    as (s' & Hvote & Hslot & _ & _ & _ & _ & Hgrowth & Hmoney).
  exists proposal, choice, s'.
  split; [exact Hprop |]. split; [exact Hchoice |]. split; [reflexivity |].
  split; [exact Hvote |]. split; [exact Hslot |]. split; [exact Hgrowth |].
  split; [vm_compute; reflexivity |].
  rewrite Hmoney. vm_compute. reflexivity.
Defined.

(** ** Mining *)

(** C7.  A tick with a connected wallet adds (population / 100) * 0.1 to
    the token balance, with the population the tick started from; sets the
    price to max(10, price + d) for the perturbation d = (rnd - 0.5) * 2,
    which lies in [-1, 1), so that the price is at least 10; and adds 1 to
    the block number.  Without a connected wallet the token state stays as
    it is. *)
Theorem C7_mining (rnd : Q) (s : AppState) :
  0 <= rnd → rnd < 1 →
  let w := web3State s in
  let w' := web3State (tick rnd s) in
  (isConnected w = true →
   skyBalance w' = skyBalance w + population (stats s) / 100 * 0.1
   ∧ skyPrice w' = Qmax 10 (skyPrice w + (rnd - 0.5) * 2)
   ∧ -1 <= (rnd - 0.5) * 2 ∧ (rnd - 0.5) * 2 < 1
   ∧ 10 <= skyPrice w'
   ∧ blockNumber w' = (blockNumber w + 1)%Z
   ∧ stakedSky w' = stakedSky w
   ∧ isConnected w' = true)
  ∧ (isConnected w = false → w' = w).
Proof.
  intros H0 H1 w w'. subst w w'. unfold tick.
  destruct (isConnected (web3State s)) eqn:Hconn; split; try discriminate.
  - intros _. cbn. rewrite Hconn.
    repeat (split; [first [reflexivity | lra] |]).
    split; [apply Q.le_max_l |]. repeat split.
  - reflexivity.
Qed.

Lemma C7_mining_witness :
  0 <= 0.25 ∧ 0.25 < 1
  ∧ isConnected (web3State miningTown) = true
  ∧ population (stats miningTown) == 5
  ∧ population (stats (tick 0.25 miningTown)) == 10
  ∧ skyBalance (web3State miningTown) == 100
  ∧ skyBalance (web3State (tick 0.25 miningTown)) == 100.005
  ∧ 10 <= skyPrice (web3State (tick 0.25 miningTown))
  ∧ blockNumber (web3State (tick 0.25 miningTown))
    = (blockNumber (web3State miningTown) + 1)%Z.
Proof.
  assert (H0 : 0 <= 0.25) by (vm_compute; discriminate).
  assert (H1 : 0.25 < 1) by (vm_compute; reflexivity).
  assert (Hconn : isConnected (web3State miningTown) = true)
    by (vm_compute; reflexivity).
  destruct (proj1 (C7_mining 0.25 miningTown H0 H1) Hconn)
    as (Hbal & _ & _ & _ & Hfloor & Hblock & _).
  split; [exact H0 |]. split; [exact H1 |]. split; [exact Hconn |].
  split; [vm_compute; reflexivity |]. split; [vm_compute; reflexivity |].
  split; [vm_compute; reflexivity |].
  split; [rewrite Hbal; vm_compute; reflexivity |].
  split; assumption.
Defined.

(** ** Clicks on tiles *)

Lemma inRange_false (x y : Z) :
  (0 <= x < GRID_SIZE)%Z → (0 <= y < GRID_SIZE)%Z →
  ((x <? 0)%Z || (GRID_SIZE <=? x)%Z || (y <? 0)%Z
   || (GRID_SIZE <=? y)%Z)%bool = false.
Proof.
  intros Hx Hy.
  replace (x <? 0)%Z with false by (symmetry; apply Z.ltb_ge; lia).
  replace (y <? 0)%Z with false by (symmetry; apply Z.ltb_ge; lia).
  replace (GRID_SIZE <=? x)%Z with false by (symmetry; apply Z.leb_gt; lia).
  replace (GRID_SIZE <=? y)%Z with false by (symmetry; apply Z.leb_gt; lia).
  reflexivity.
Qed.

(** C8.  A click with the bulldozer on a tile of the map: on an empty tile
    the state stays as it is; on an occupied tile with money < 5 the grid
    and the statistics stay as they are (only the notice goes to the news
    feed); on an occupied tile with money >= 5 exactly 5 is deducted, the
    tile becomes an empty tile of level 1 at the same position, and no
    other tile changes. *)
Theorem C8_demolish (x y : Z) (s : AppState) (tile : TileData) :
  gameStarted s = true → selectedTool s = BNone →
  (0 <= x < GRID_SIZE)%Z → (0 <= y < GRID_SIZE)%Z →
  getTile (grid s) x y = Some tile →
  ∃ s', handleTileClick x y s = Some s'
    ∧ (tile_buildingType tile = BNone → s' = s)
    ∧ (occupied tile → money (stats s) < demolishCost →
       s' = addNewsItem (mkNewsItem CannotAffordDemolition negative) s
       ∧ grid s' = grid s ∧ stats s' = stats s)
    ∧ (occupied tile → demolishCost <= money (stats s) →
       money (stats s') = money (stats s) - 5
       ∧ population (stats s') = population (stats s)
       ∧ day (stats s') = day (stats s)
       ∧ getTile (grid s') x y
         = Some (mkTileData (tile_x tile) (tile_y tile) BNone
                   (tile_variant tile) (Some 1%Z))
       ∧ (∀ x' y', (0 <= x')%Z → (0 <= y')%Z → (x', y') ≠ (x, y) →
          getTile (grid s') x' y' = getTile (grid s) x' y')).
Proof.
  intros Hstarted Htool Hx Hy Htile. unfold handleTileClick.
  rewrite Hstarted, (inRange_false x y Hx Hy), Htile, Htool.
  cbn [negb mbind option_bind].
  rewrite (bool_decide_eq_false_2 (BNone ≠ BNone)) by tauto.
  rewrite (bool_decide_eq_true_2 (BNone = BNone)) by reflexivity.
  cbn [andb]. unfold occupied.
  destruct (decide (tile_buildingType tile = BNone)) as [E | E].
  - rewrite (bool_decide_eq_false_2 _ (λ H, H E)).
    exists s. split; [reflexivity |]. split; [reflexivity |].
    split; intros H; contradiction.
  - rewrite (bool_decide_eq_true_2 _ E).
    destruct (Qle_bool demolishCost (money (stats s))) eqn:Hfunds.
    + apply Qle_bool_iff in Hfunds.
      eexists. split; [reflexivity |]. split; [intros H; contradiction |].
      split; [intros _ H; lra |]. intros _ _.
      destruct (bool_decide (selectedTilePos s = Some (x, y))).
      all: split; [reflexivity |]; split; [reflexivity |].
      all: split; [reflexivity |]; split.
      all: try (eapply getTile_setTile_eq, Htile).
      all: intros x' y' Hx' Hy' Hne; cbn.
      all: apply getTile_setTile_ne; lia || assumption.
    + apply Qle_bool_false in Hfunds.
      eexists. split; [reflexivity |]. split; [intros H; contradiction |].
      split; [intros _ _; repeat split | intros _ H; lra].
Qed.

Lemma C8_demolish_witness :
  gameStarted bulldozerInHand = true
  ∧ selectedTool bulldozerInHand = BNone
  ∧ getTile (grid bulldozerInHand) 0 0
    = Some (mkTileData 0 0 Residential None (Some 1%Z))
  ∧ demolishCost <= money (stats bulldozerInHand)
  ∧ ∃ s', handleTileClick 0 0 bulldozerInHand = Some s'
      ∧ money (stats s') = money (stats bulldozerInHand) - 5
      ∧ getTile (grid s') 0 0 = Some (mkTileData 0 0 BNone None (Some 1%Z)).
Proof.
  assert (H1 : gameStarted bulldozerInHand = true) by (vm_compute; reflexivity).
  assert (H2 : selectedTool bulldozerInHand = BNone)
    by (vm_compute; reflexivity).
  assert (H3 : getTile (grid bulldozerInHand) 0 0
               = Some (mkTileData 0 0 Residential None (Some 1%Z)))
    by (vm_compute; reflexivity).
  assert (H4 : demolishCost <= money (stats bulldozerInHand))
    by (vm_compute; discriminate).
  assert (Hx : (0 <= 0 < GRID_SIZE)%Z) by (unfold GRID_SIZE; lia).
  destruct (C8_demolish 0 0 bulldozerInHand _ H1 H2 Hx Hx H3)
    as (s' & Hclick & _ & _ & Hok).
  destruct Hok as (Hmoney & _ & _ & Htile & _); [discriminate | exact H4 |].
  split; [exact H1 |]. split; [exact H2 |]. split; [exact H3 |].
  split; [exact H4 |]. exists s'.
  split; [exact Hclick |]. split; [exact Hmoney | exact Htile].
Defined.

(** C9.  A click on a tile that holds a building other than a road, with a
    tool other than the bulldozer in hand, changes neither the statistics
    nor the grid: it only sets the selection (to the clicked position, when
    the game has started and the position is on the map). *)
Theorem C9_select_only (x y : Z) (s : AppState) (tile : TileData) :
  selectedTool s ≠ BNone →
  getTile (grid s) x y = Some tile →
  tile_buildingType tile ≠ BNone → tile_buildingType tile ≠ Road →
  ∃ s', handleTileClick x y s = Some s'
    ∧ stats s' = stats s
    ∧ grid s' = grid s
    ∧ getTile (grid s') x y = Some tile
    ∧ newsFeed s' = newsFeed s
    ∧ web3State s' = web3State s
    ∧ gameModifiers s' = gameModifiers s
    ∧ (gameStarted s = true →
       (0 <= x < GRID_SIZE)%Z → (0 <= y < GRID_SIZE)%Z →
       s' = setSelectedTilePos (Some (x, y)) s).
Proof.
  intros Htool Htile Hocc Hroad. unfold handleTileClick.
  destruct (gameStarted s); cbn [negb].
  - destruct ((x <? 0)%Z || (GRID_SIZE <=? x)%Z || (y <? 0)%Z
              || (GRID_SIZE <=? y)%Z)%bool eqn:Hrange.
    + exists s. repeat (split; [first [reflexivity | exact Htile] |]).
      intros _ Hx Hy. rewrite (inRange_false x y Hx Hy) in Hrange.
      discriminate.
    + rewrite Htile. cbn [mbind option_bind].
      rewrite !bool_decide_eq_true_2 by assumption. cbn [andb].
      eexists. split; [reflexivity |].
      repeat (split; [first [reflexivity | exact Htile] |]).
      reflexivity.
  - exists s. repeat (split; [first [reflexivity | exact Htile] |]).
    discriminate.
Qed.

Lemma C9_select_only_witness :
  selectedTool houseBuilt ≠ BNone
  ∧ getTile (grid houseBuilt) 0 0
    = Some (mkTileData 0 0 Residential None (Some 1%Z))
  ∧ ∃ s', handleTileClick 0 0 houseBuilt = Some s'
      ∧ stats s' = stats houseBuilt
      ∧ grid s' = grid houseBuilt
      ∧ selectedTilePos s' = Some (0, 0)%Z.
Proof.
  assert (H1 : selectedTool houseBuilt ≠ BNone)
    by (vm_compute; discriminate).
  assert (H2 : getTile (grid houseBuilt) 0 0
               = Some (mkTileData 0 0 Residential None (Some 1%Z)))
    by (vm_compute; reflexivity).
  assert (Hx : (0 <= 0 < GRID_SIZE)%Z) by (unfold GRID_SIZE; lia).
  destruct (C9_select_only 0 0 houseBuilt _ H1 H2)
    as (s' & Hclick & Hstats & Hgrid & _ & _ & _ & _ & Hsel);
    [discriminate | discriminate |].
  split; [exact H1 |]. split; [exact H2 |]. exists s'.
  split; [exact Hclick |]. split; [exact Hstats |]. split; [exact Hgrid |].
  rewrite Hsel; [reflexivity | vm_compute; reflexivity | exact Hx | exact Hx].
Defined.

(** ** Staking *)

Lemma sameOutsideStaking_refl (s : AppState) : sameOutsideStaking s s.
Proof. repeat split. Qed.

(** C10, as amended.  For an amount >= 0, a stake that the token balance
    covers sets skyBalance to skyBalance - amount and stakedSky to
    stakedSky + amount, an unstake that the staked balance covers does the
    reverse, and each appends one entry to the transaction log; nothing
    else changes.  If both balances were non-negative they still are.
    Without the funds (skyBalance < amount for a stake, stakedSky < amount
    for an unstake) the state stays as it is. *)
Theorem C10_stake_unstake (amount : Q) (s : AppState) :
  0 <= amount →
  let w := web3State s in
  (let s' := handleStake amount s in
   let w' := web3State s' in
   sameOutsideStaking s s'
   ∧ (0 <= skyBalance w → 0 <= stakedSky w →
      0 <= skyBalance w' ∧ 0 <= stakedSky w')
   ∧ (skyBalance w < amount → s' = s)
   ∧ (amount <= skyBalance w →
      skyBalance w' = skyBalance w - amount
      ∧ stakedSky w' = stakedSky w + amount
      ∧ transactions s'
        = sliceLast 19 (transactions s)
          ++ [mkTransaction STAKE (StakedSky amount) (blockNumber w)]))
  ∧ (let s' := handleUnstake amount s in
     let w' := web3State s' in
     sameOutsideStaking s s'
     ∧ (0 <= skyBalance w → 0 <= stakedSky w →
        0 <= skyBalance w' ∧ 0 <= stakedSky w')
     ∧ (stakedSky w < amount → s' = s)
     ∧ (amount <= stakedSky w →
        skyBalance w' = skyBalance w + amount
        ∧ stakedSky w' = stakedSky w - amount
        ∧ transactions s'
          = sliceLast 19 (transactions s)
            ++ [mkTransaction UNSTAKE (UnstakedSky amount) (blockNumber w)])).
Proof.
  intros Hamount w. subst w. split; cbn zeta.
  - unfold handleStake.
    destruct (Qle_bool amount (skyBalance (web3State s))) eqn:Hfunds.
    + apply Qle_bool_iff in Hfunds. cbn.
      split; [repeat split |].
      split; [intros; split; lra |]. split; [intros; lra |].
      intros _. repeat split.
    + apply Qle_bool_false in Hfunds.
      split; [apply sameOutsideStaking_refl |].
      split; [intros; split; assumption |]. split; [reflexivity |].
      intros; lra.
  - unfold handleUnstake.
    destruct (Qle_bool amount (stakedSky (web3State s))) eqn:Hfunds.
    + apply Qle_bool_iff in Hfunds. cbn.
      split; [repeat split |].
      split; [intros; split; lra |]. split; [intros; lra |].
      intros _. repeat split.
    + apply Qle_bool_false in Hfunds.
      split; [apply sameOutsideStaking_refl |].
      split; [intros; split; assumption |]. split; [reflexivity |].
      intros; lra.
Qed.

Lemma C10_stake_unstake_witness :
  0 <= 40
  ∧ skyBalance (web3State walletConnected) == 100
  ∧ stakedSky (web3State walletConnected) == 0
  ∧ 40 <= skyBalance (web3State walletConnected)
  ∧ skyBalance (web3State (handleStake 40 walletConnected))
    = skyBalance (web3State walletConnected) - 40
  ∧ stakedSky (web3State (handleStake 40 walletConnected))
    = stakedSky (web3State walletConnected) + 40
  ∧ stakedSky (web3State walletConnected) < 40
  ∧ handleUnstake 40 walletConnected = walletConnected.
Proof.
  assert (H0 : 0 <= 40) by (vm_compute; discriminate).
  assert (H1 : 40 <= skyBalance (web3State walletConnected))
    by (vm_compute; discriminate).
  assert (H2 : stakedSky (web3State walletConnected) < 40)
    by (vm_compute; reflexivity).
  destruct (C10_stake_unstake 40 walletConnected H0) as [Hs Hu].
  destruct Hs as (_ & _ & _ & Hok). destruct Hu as (_ & _ & Hnop & _).
  destruct (Hok H1) as (Hb & Hst & _).
  split; [exact H0 |].
  split; [vm_compute; reflexivity |]. split; [vm_compute; reflexivity |].
  split; [exact H1 |]. split; [exact Hb |]. split; [exact Hst |].
  split; [exact H2 | exact (Hnop H2)].
Defined.

(** C10, as the claim states it, fails on both counts.  A stake that goes
    through touches a third piece of state, the transaction log.  And the
    sum of the two balances is kept only up to rounding: in binary64,
    after a first stake of 0.1 out of 100 a second stake of 0.1 is
    accepted and moves the sum of the two balances from 100 to
    100.00000000000001. *)
Lemma C10_counterexample :
  (0 <= 40
   ∧ transactions walletConnected = []
   ∧ transactions (handleStake 40 walletConnected)
     = [mkTransaction STAKE (StakedSky 40) 1024500])
  ∧ (let '(b1, s1) := handleStake64 tenth64 100 0 in
     let '(b2, s2) := handleStake64 tenth64 b1 s1 in
     PrimFloat.leb 0 tenth64 = true
     ∧ PrimFloat.leb tenth64 b1 = true
     ∧ PrimFloat.eqb (PrimFloat.add b1 s1) 100 = true
     ∧ PrimFloat.eqb (PrimFloat.add b2 s2) (PrimFloat.add b1 s1) = false).
Proof.
  split.
  - split; [vm_compute; discriminate |]. split; vm_compute; reflexivity.
  - vm_compute. repeat split.
Qed.

(** * Further properties of the application *)

(** ** The shape of the grid *)

Lemma getTile_onMap (g : Grid) (x y : Z) :
  length g = Z.to_nat GRID_SIZE →
  Forall (λ row, length row = Z.to_nat GRID_SIZE) g →
  onMap x y → is_Some (getTile g x y).
Proof.
  intros Hlen Hrows [Hx Hy]. unfold getTile.
  replace (x <? 0)%Z with false by (symmetry; apply Z.ltb_ge; lia).
  replace (y <? 0)%Z with false by (symmetry; apply Z.ltb_ge; lia).
  cbn [orb].
  destruct (lookup_lt_is_Some_2 g (Z.to_nat y)) as [row Hrow]; [lia |].
  rewrite Hrow. cbn.
  apply lookup_lt_is_Some_2.
  rewrite Forall_lookup in Hrows. rewrite (Hrows _ _ Hrow). lia.
Qed.

Lemma getTile_offMap (g : Grid) (x y : Z) :
  length g = Z.to_nat GRID_SIZE →
  Forall (λ row, length row = Z.to_nat GRID_SIZE) g →
  ¬ onMap x y → getTile g x y = None.
Proof.
  intros Hlen Hrows Hoff. unfold getTile.
  destruct (x <? 0)%Z eqn:Hx; [reflexivity |].
  destruct (y <? 0)%Z eqn:Hy; [reflexivity |].
  apply Z.ltb_ge in Hx, Hy. cbn [orb].
  destruct (g !! Z.to_nat y) as [row |] eqn:Hrow; [| reflexivity].
  cbn. apply lookup_ge_None.
  rewrite Forall_lookup in Hrows. rewrite (Hrows _ _ Hrow).
  apply lookup_lt_Some in Hrow. unfold onMap in Hoff. lia.
Qed.

Lemma wellFormedGrid_initial : wellFormedGrid createInitialGrid.
Proof.
  unfold wellFormedGrid, createInitialGrid. split; [| split].
  - rewrite length_fmap, length_seqZ. reflexivity.
  - apply Forall_fmap, Forall_forall. intros y _. cbn.
    rewrite length_fmap, length_seqZ. reflexivity.
  - intros x y t H. apply getTile_Some in H.
    destruct H as (Hx & Hy & row & Hrow & Ht).
    rewrite list_lookup_fmap in Hrow.
    destruct (seqZ 0 GRID_SIZE !! Z.to_nat y) as [y' |] eqn:Ey;
      [| discriminate].
    apply lookup_seqZ in Ey. cbn in Hrow. simplify_eq.
    rewrite list_lookup_fmap in Ht.
    destruct (seqZ 0 GRID_SIZE !! Z.to_nat x) as [x' |] eqn:Ex;
      [| discriminate].
    apply lookup_seqZ in Ex. cbn in Ht. simplify_eq. cbn. lia.
Qed.

Lemma wellFormedGrid_setTile (g : Grid) (x y : Z) (t t' : TileData) :
  wellFormedGrid g → getTile g x y = Some t →
  tile_x t' = tile_x t → tile_y t' = tile_y t →
  wellFormedGrid (setTile g x y t').
Proof.
  intros (Hlen & Hrows & Hpos) Ht Hx Hy.
  destruct (getTile_Some _ _ _ _ Ht) as (Hx0 & Hy0 & _).
  unfold setTile. split; [| split].
  - rewrite length_alter. exact Hlen.
  - apply Forall_alter; [exact Hrows |].
    intros row _ Hrow. rewrite length_insert. exact Hrow.
  - intros x' y' u Hu. fold (setTile g x y t') in Hu.
    destruct (decide ((x', y') = (x, y))) as [E | E].
    + simplify_eq. rewrite (getTile_setTile_eq _ _ _ _ _ Ht) in Hu.
      simplify_eq. rewrite Hx, Hy. exact (Hpos _ _ _ Ht).
    + destruct (getTile_Some _ _ _ _ Hu) as (Hx' & Hy' & _).
      rewrite getTile_setTile_ne in Hu by assumption.
      exact (Hpos _ _ _ Hu).
Qed.

Lemma wellFormedGrid_react (e : Event) (s : AppState) :
  wellFormedGrid (grid s) → wellFormedGrid (grid (react e s)).
Proof.
  intros Hwf. destruct e.
  all: crack_react; cbn; try exact Hwf.
  all: eapply wellFormedGrid_setTile; [exact Hwf | eassumption | ..];
    reflexivity.
Qed.

Lemma reachable_wellFormedGrid (s : AppState) :
  reachable s → wellFormedGrid (grid s).
Proof.
  induction 1 as [| e s _ IH].
  - apply wellFormedGrid_initial.
  - apply wellFormedGrid_react, IH.
Qed.

(** X1.  In every reachable state the grid is a 15 x 15 square: a read of
    [grid[y][x]] finds a tile exactly for the positions on the map, and the
    tile found records that position and carries a level of at least
    1. *)
Theorem X1_grid_shape (s : AppState) (x y : Z) :
  reachable s →
  length (grid s) = 15%nat
  ∧ Forall (λ row, length row = 15%nat) (grid s)
  ∧ (onMap x y →
     ∃ t l, getTile (grid s) x y = Some t
       ∧ tile_x t = x ∧ tile_y t = y
       ∧ tile_level t = Some l ∧ (1 <= l)%Z)
  ∧ (¬ onMap x y → getTile (grid s) x y = None).
Proof.
  intros Hr. destruct (reachable_wellFormedGrid s Hr) as (Hlen & Hrows & Hpos).
  destruct (reachable_invariant s Hr) as [Hlev _ _ _].
  split; [exact Hlen |]. split; [exact Hrows |]. split.
  - intros Hon. destruct (getTile_onMap _ _ _ Hlen Hrows Hon) as [t Ht].
    destruct (levelsPositive_getTile _ _ _ _ Hlev Ht) as (l & Hl & Hl1).
    destruct (Hpos _ _ _ Ht) as [Hx Hy]. eauto 10.
  - apply getTile_offMap; assumption.
Qed.

Lemma X1_grid_shape_witness :
  reachable upgradedHouse
  ∧ onMap 0 0
  ∧ getTile (grid upgradedHouse) 0 0
    = Some (mkTileData 0 0 Residential None (Some 2%Z))
  ∧ ¬ onMap 15 3
  ∧ getTile (grid upgradedHouse) 15 3 = None.
Proof.
  assert (Hr : reachable upgradedHouse)
    by (apply reachable_run, reachable_init).
  assert (Hoff : ¬ onMap 15 3) by (unfold onMap, GRID_SIZE; lia).
  split; [exact Hr |]. split; [unfold onMap, GRID_SIZE; lia |].
  split; [vm_compute; reflexivity |]. split; [exact Hoff |].
  exact (proj2 (proj2 (proj2 (X1_grid_shape upgradedHouse 15 3 Hr))) Hoff).
Defined.

(** ** Exceptions *)

Lemma proposalBinary_react (e : Event) (s : AppState) :
  proposalBinary s → proposalBinary (react e s).
Proof.
  intros Hp. destruct e.
  all: crack_react; try exact Hp.
  all: intros p Hact; cbn in Hact; try discriminate; try (apply Hp, Hact).
  - (* a generated proposal *)
    simplify_eq. cbn. split; [| reflexivity].
    rewrite length_take.
    match goal with H : (2 <=? _)%nat = true |- _ => apply Nat.leb_le in H end.
    lia.
  - (* an audit result *)
    destruct (activeProposal s) as [q |] eqn:Hq; [| discriminate].
    cbn in Hact. simplify_eq. exact (Hp q Hq).
Qed.

Lemma reachable_proposalBinary (s : AppState) :
  reachable s → proposalBinary s.
Proof.
  induction 1 as [| e s _ IH].
  - intros p H. discriminate.
  - apply proposalBinary_react, IH.
Qed.

Lemma handleTileClick_is_Some (x y : Z) (s : AppState) :
  wellFormedGrid (grid s) → is_Some (handleTileClick x y s).
Proof.
  intros (Hlen & Hrows & _). unfold handleTileClick.
  destruct (gameStarted s); cbn [negb]; [| eauto].
  destruct ((x <? 0)%Z || (GRID_SIZE <=? x)%Z || (y <? 0)%Z
            || (GRID_SIZE <=? y)%Z)%bool eqn:Hrange; [eauto |].
  assert (Hon : onMap x y).
  { unfold onMap. repeat (apply orb_false_iff in Hrange as [Hrange ?]).
    repeat match goal with
           | H : (_ <? _)%Z = false |- _ => apply Z.ltb_ge in H
           | H : (_ <=? _)%Z = false |- _ => apply Z.leb_gt in H
           end.
    lia. }
  destruct (getTile_onMap _ _ _ Hlen Hrows Hon) as [tile Htile].
  rewrite Htile. cbn [mbind option_bind].
  repeat crack_step; eauto.
Qed.

(** X2.  In a reachable state no handler raises an exception: a tile click
    returns for every pair of coordinates, on or off the map; an upgrade
    returns; and a vote for option 0 or option 1 returns.  Only a vote for
    an index of 2 or more on an active proposal would read the label of an
    undefined option. *)
Theorem X2_no_exception (s : AppState) :
  reachable s →
  (∀ x y, is_Some (handleTileClick x y s))
  ∧ is_Some (handleUpgrade s)
  ∧ (∀ i, (i < 2)%nat → is_Some (handleVote i s))
  ∧ (∀ i, is_Some (activeProposal s) → (2 <= i)%nat → handleVote i s = None).
Proof.
  intros Hr.
  pose proof (reachable_wellFormedGrid s Hr) as Hwf.
  pose proof (reachable_proposalBinary s Hr) as Hbin.
  destruct (reachable_invariant s Hr) as [_ Hsel _ _].
  split; [intros x y; apply handleTileClick_is_Some, Hwf |].
  split; [| split].
  - unfold handleUpgrade.
    destruct (selectedTilePos s) as [[x y] |] eqn:Hpos; [| eauto].
    destruct (Hsel x y Hpos) as (_ & _ & t & Ht & _).
    rewrite Ht. cbn [mbind option_bind]. destruct (Qle_bool _ _); eauto.
  - intros i Hi. unfold handleVote.
    destruct (activeProposal s) as [p |] eqn:Hp; [| eauto].
    destruct (Hbin p Hp) as [Hlen _].
    destruct (lookup_lt_is_Some_2 (prop_options p) i) as [c Hc]; [lia |].
    rewrite Hc. cbn. eauto.
  - intros i [p Hp] Hi. unfold handleVote. rewrite Hp.
    destruct (Hbin p Hp) as [Hlen _].
    rewrite (lookup_ge_None_2 (prop_options p) i) by lia. reflexivity.
Qed.

Lemma X2_no_exception_witness :
  reachable festivalVote
  ∧ is_Some (handleTileClick (-1) 20 festivalVote)
  ∧ is_Some (handleTileClick 5 5 festivalVote)
  ∧ is_Some (handleVote 1 festivalVote)
  ∧ handleVote 2 festivalVote = None.
Proof.
  assert (Hr : reachable festivalVote)
    by (apply reachable_run, reachable_init).
  destruct (X2_no_exception festivalVote Hr) as (Hclick & _ & Hvote & Hthrow).
  split; [exact Hr |]. split; [apply Hclick |]. split; [apply Hclick |].
  split; [apply Hvote; lia |].
  apply Hthrow; [vm_compute; eauto | lia].
Defined.

(** ** Placement *)

(** X3.  A click with a building tool on an empty tile of the map: with
    money < cost(tool) the grid and the statistics stay as they are (only
    the notice goes to the news feed); with money >= cost(tool) exactly
    the cost is deducted, the tile holds the tool's building at level 1 at
    the same position, no other tile changes, and the selection is
    cleared. *)
Theorem X3_place (x y : Z) (s : AppState) (tile : TileData) :
  gameStarted s = true → selectedTool s ≠ BNone → onMap x y →
  getTile (grid s) x y = Some tile → tile_buildingType tile = BNone →
  let config := BUILDINGS (selectedTool s) in
  ∃ s', handleTileClick x y s = Some s'
    ∧ (money (stats s) < cfg_cost config →
       s' = addNewsItem
              (mkNewsItem (TreasuryInsufficient (cfg_name config)) negative) s
       ∧ grid s' = grid s ∧ stats s' = stats s)
    ∧ (cfg_cost config <= money (stats s) →
       money (stats s') = money (stats s) - cfg_cost config
       ∧ population (stats s') = population (stats s)
       ∧ day (stats s') = day (stats s)
       ∧ getTile (grid s') x y
         = Some (mkTileData (tile_x tile) (tile_y tile) (selectedTool s)
                   (tile_variant tile) (Some 1%Z))
       ∧ (∀ x' y', (0 <= x')%Z → (0 <= y')%Z → (x', y') ≠ (x, y) →
          getTile (grid s') x' y' = getTile (grid s) x' y')
       ∧ selectedTilePos s' = None).
Proof.
  intros Hstarted Htool [Hx Hy] Htile Hempty config. subst config.
  unfold handleTileClick.
  rewrite Hstarted, (inRange_false x y Hx Hy), Htile.
  cbn [negb mbind option_bind].
  rewrite (bool_decide_eq_true_2 _ Htool).
  rewrite (bool_decide_eq_false_2 (tile_buildingType tile ≠ BNone))
    by (intros H; exact (H Hempty)).
  cbn [andb].
  rewrite (bool_decide_eq_false_2 _ Htool).
  rewrite (bool_decide_eq_true_2 _ Hempty).
  destruct (Qle_bool _ _) eqn:Hfunds.
  - apply Qle_bool_iff in Hfunds.
    eexists. split; [reflexivity |]. split; [intros H; lra |]. intros _.
    destruct (selectedTilePos s) eqn:Hsel.
    all: split; [reflexivity |]; split; [reflexivity |].
    all: split; [reflexivity |]; split;
      [eapply getTile_setTile_eq, Htile |].
    all: split; [| first [reflexivity | exact Hsel]].
    all: intros x' y' Hx' Hy' Hne; cbn.
    all: apply getTile_setTile_ne; lia || assumption.
  - apply Qle_bool_false in Hfunds.
    eexists. split; [reflexivity |].
    split; [intros _; repeat split | intros H; lra].
Qed.

Lemma X3_place_witness :
  gameStarted houseBuilt = true
  ∧ selectedTool houseBuilt = Residential
  ∧ onMap 7 9
  ∧ getTile (grid houseBuilt) 7 9 = Some (mkTileData 7 9 BNone None (Some 1%Z))
  ∧ money (stats houseBuilt) == 900
  ∧ ∃ s', handleTileClick 7 9 houseBuilt = Some s'
      ∧ money (stats s') == 800
      ∧ getTile (grid s') 7 9
        = Some (mkTileData 7 9 Residential None (Some 1%Z)).
Proof.
  assert (H1 : gameStarted houseBuilt = true) by (vm_compute; reflexivity).
  assert (H2 : selectedTool houseBuilt = Residential)
    by (vm_compute; reflexivity).
  assert (H3 : onMap 7 9) by (unfold onMap, GRID_SIZE; lia).
  assert (H4 : getTile (grid houseBuilt) 7 9
               = Some (mkTileData 7 9 BNone None (Some 1%Z)))
    by (vm_compute; reflexivity).
  assert (H5 : selectedTool houseBuilt ≠ BNone) by (rewrite H2; discriminate).
  destruct (X3_place 7 9 houseBuilt _ H1 H5 H3 H4 eq_refl)
    as (s' & Hclick & _ & Hok).
  destruct Hok as (Hmoney & _ & _ & Htile & _); [vm_compute; discriminate |].
  split; [exact H1 |]. split; [exact H2 |]. split; [exact H3 |].
  split; [exact H4 |]. split; [vm_compute; reflexivity |].
  exists s'. split; [exact Hclick |].
  split; [rewrite Hmoney; vm_compute; reflexivity |].
  rewrite Htile, H2. reflexivity.
Defined.

(** X4.  A building tool never replaces what stands on a tile: a click on
    an occupied tile with a tool other than the bulldozer leaves the grid
    and the statistics as they are, and on a road it leaves the whole
    state as it is (roads are not selected either). *)
Theorem X4_no_replacement (x y : Z) (s : AppState) (tile : TileData) :
  selectedTool s ≠ BNone →
  getTile (grid s) x y = Some tile → tile_buildingType tile ≠ BNone →
  ∃ s', handleTileClick x y s = Some s'
    ∧ grid s' = grid s ∧ stats s' = stats s
    ∧ (tile_buildingType tile = Road → s' = s).
Proof.
  intros Htool Htile Hocc. unfold handleTileClick.
  destruct (gameStarted s); cbn [negb]; [| eauto].
  destruct ((x <? 0)%Z || (GRID_SIZE <=? x)%Z || (y <? 0)%Z
            || (GRID_SIZE <=? y)%Z)%bool; [eauto |].
  rewrite Htile. cbn [mbind option_bind].
  rewrite (bool_decide_eq_true_2 _ Htool), (bool_decide_eq_true_2 _ Hocc).
  rewrite (bool_decide_eq_false_2 _ Htool), (bool_decide_eq_false_2 _ Hocc).
  cbn [andb]. case_bool_decide as Hroad.
  - eexists. split; [reflexivity |]. split; [reflexivity |].
    split; [reflexivity |]. intros H. contradiction.
  - eauto.
Qed.

Lemma X4_no_replacement_witness :
  ∃ s0,
    reachable s0
    ∧ selectedTool s0 = Commercial
    ∧ getTile (grid s0) 2 2 = Some (mkTileData 2 2 Road None (Some 1%Z))
    ∧ handleTileClick 2 2 s0 = Some s0.
Proof.
  set (s0 := run [Start true; TileClick 2 2; SelectTool Commercial]
               initialState).
  assert (Hr : reachable s0) by (apply reachable_run, reachable_init).
  assert (H1 : selectedTool s0 = Commercial) by (vm_compute; reflexivity).
  assert (H2 : getTile (grid s0) 2 2
               = Some (mkTileData 2 2 Road None (Some 1%Z)))
    by (vm_compute; reflexivity).
  assert (H3 : selectedTool s0 ≠ BNone) by (rewrite H1; discriminate).
  destruct (X4_no_replacement 2 2 s0 _ H3 H2) as (s' & Hclick & _ & _ & Hsame);
    [discriminate |].
  exists s0. split; [exact Hr |]. split; [exact H1 |]. split; [exact H2 |].
  rewrite Hclick, (Hsame eq_refl). reflexivity.
Defined.

(** ** The rolling logs *)

Lemma length_sliceLast {A : Type} (n : nat) (l : list A) :
  length (sliceLast n l) = Nat.min n (length l).
Proof. unfold sliceLast. rewrite length_drop. lia. Qed.

Lemma length_slice_push {A : Type} (n : nat) (l : list A) (x : A) :
  (length (sliceLast n l ++ [x]) <= S n)%nat.
Proof. rewrite length_app, length_sliceLast. cbn. lia. Qed.

Lemma sliceLast_short {A : Type} (n : nat) (l : list A) :
  (length l <= n)%nat → sliceLast n l = l.
Proof.
  intros H. unfold sliceLast.
  replace (length l - n)%nat with 0%nat by lia. reflexivity.
Qed.

Lemma logsBounded_react (e : Event) (s : AppState) :
  logsBounded s → logsBounded (react e s).
Proof.
  intros [Hn Ht]. destruct e.
  all: crack_react.
  all: split; cbn; try assumption; try apply length_slice_push.
Qed.

Lemma reachable_logsBounded (s : AppState) : reachable s → logsBounded s.
Proof.
  induction 1 as [| e s _ IH].
  - split; cbn; lia.
  - apply logsBounded_react, IH.
Qed.

(** X5.  In every reachable state the news feed holds at most 13 items and
    the transaction log at most 20 entries.  A news item is added at the
    end; while the feed holds at most 12 items nothing is dropped, and
    once it holds 13 the oldest item is dropped. *)
Theorem X5_logs_bounded (s : AppState) (item : NewsItem) :
  reachable s →
  (length (newsFeed s) <= 13)%nat
  ∧ (length (transactions s) <= 20)%nat
  ∧ last (newsFeed (addNewsItem item s)) = Some item
  ∧ ((length (newsFeed s) <= 12)%nat →
     newsFeed (addNewsItem item s) = newsFeed s ++ [item])
  ∧ (length (newsFeed s) = 13%nat →
     newsFeed (addNewsItem item s) = drop 1 (newsFeed s) ++ [item]).
Proof.
  intros Hr. destruct (reachable_logsBounded s Hr) as [Hn Ht].
  split; [exact Hn |]. split; [exact Ht |]. cbn.
  split; [apply last_snoc |]. split.
  - intros H. rewrite sliceLast_short by exact H. reflexivity.
  - intros H. unfold sliceLast. rewrite H. reflexivity.
Qed.

Lemma X5_logs_bounded_witness :
  reachable festivalVote
  ∧ length (newsFeed festivalVote) = 2%nat
  ∧ newsFeed (addNewsItem (mkNewsItem (Headline "Rain") neutral) festivalVote)
    = newsFeed festivalVote ++ [mkNewsItem (Headline "Rain") neutral].
Proof.
  assert (Hr : reachable festivalVote)
    by (apply reachable_run, reachable_init).
  assert (Hlen : length (newsFeed festivalVote) = 2%nat)
    by (vm_compute; reflexivity).
  split; [exact Hr |]. split; [exact Hlen |].
  destruct (X5_logs_bounded festivalVote
              (mkNewsItem (Headline "Rain") neutral) Hr)
    as (_ & _ & _ & Hshort & _).
  apply Hshort. rewrite Hlen. lia.
Defined.

(** ** The calendar *)

Lemma day_react (e : Event) (s : AppState) :
  day (stats (react e s))
  = if tickRuns e s then (day (stats s) + 1)%Z else day (stats s).
Proof.
  destruct e; unfold tickRuns.
  2: { unfold react. destruct (gameStarted s); cbn [negb andb];
         [| reflexivity].
       destruct (Qle_bool 0 rnd && Qlt_bool rnd 1)%bool; [| reflexivity].
       rewrite stats_tick. reflexivity. }
  all: crack_react; reflexivity.
Qed.

(** X6.  The day advances by exactly 1 in a tick that runs and is left
    alone by every other event; in every reachable state the day is at
    least 1. *)
Theorem X6_day (e : Event) (s : AppState) :
  reachable s →
  (1 <= day (stats s))%Z
  ∧ day (stats (react e s))
    = if tickRuns e s then (day (stats s) + 1)%Z else day (stats s).
Proof.
  intros Hr. split; [| apply day_react].
  induction Hr as [| e' s' _ IH]; [cbn; lia |].
  rewrite day_react. destruct (tickRuns e' s'); lia.
Qed.

Lemma X6_day_witness :
  reachable houseBuilt
  ∧ day (stats houseBuilt) = 1%Z
  ∧ day (stats (react (Tick 0.5) houseBuilt)) = 2%Z
  ∧ day (stats (react (Tick 1) houseBuilt)) = 1%Z
  ∧ day (stats (react (Stake 3) houseBuilt)) = 1%Z.
Proof.
  assert (Hr : reachable houseBuilt)
    by (apply reachable_run, reachable_init).
  split; [exact Hr |]. split; [vm_compute; reflexivity |].
  rewrite !(λ e, proj2 (X6_day e houseBuilt Hr)).
  repeat split.
Defined.

(** ** Signs and bounds of the economy *)

Lemma popGen_nonneg (b : BuildingType) : 0 <= cfg_popGen (BUILDINGS b).
Proof. destruct b; cbn; lra. Qed.

Lemma inject_Z_level_nonneg (t : TileData) (l : Z) :
  tile_level t = Some l → (1 <= l)%Z → 0 <= inject_Z (levelOf t).
Proof.
  intros Hl Hl1. unfold levelOf. rewrite Hl. cbn.
  change 0 with (inject_Z 0). rewrite <- Zle_Qle. lia.
Qed.

Lemma popGrowthSum_nonneg (g : Grid) :
  levelsPositive g → 0 <= popGrowthSum g.
Proof.
  intros Hlev. unfold popGrowthSum. apply sumQ_nonneg, Forall_fmap.
  apply levelsPositive_concat in Hlev. rewrite Forall_forall in Hlev.
  apply Forall_forall. intros t Ht.
  apply list_elem_of_filter in Ht. destruct Ht as [_ Ht].
  destruct (Hlev t Ht) as (l & Hl & Hl1). cbn.
  apply Qmult_le_0_compat;
    [apply popGen_nonneg | exact (inject_Z_level_nonneg t l Hl Hl1)].
Qed.

Lemma housingSum_nonneg (g : Grid) : levelsPositive g → 0 <= housingSum g.
Proof.
  intros Hlev. unfold housingSum. apply sumQ_nonneg, Forall_fmap.
  apply levelsPositive_concat in Hlev. rewrite Forall_forall in Hlev.
  apply Forall_forall. intros t Ht.
  apply list_elem_of_filter in Ht. destruct Ht as [_ Ht].
  destruct (Hlev t Ht) as (l & Hl & Hl1). cbn.
  pose proof (inject_Z_level_nonneg t l Hl Hl1). lra.
Qed.

Lemma dailyPopGrowthOf_nonneg (s : AppState) :
  invariant s → 0 <= dailyPopGrowthOf s.
Proof.
  intros [Hlev _ _ Hgrowth]. unfold dailyPopGrowthOf. cbn zeta.
  assert (Hbase : 0 <= snd (fst (scanGrid (grid s)))
                       * growthRate (gameModifiers s)).
  { rewrite scanGrid_growth by exact Hlev.
    apply Qmult_le_0_compat; [apply popGrowthSum_nonneg |]; assumption. }
  destruct (Qlt_bool 0 (stakedSky (web3State s))) eqn:Hstaked;
    [| exact Hbase].
  apply Qlt_bool_iff in Hstaked.
  apply Qmult_le_0_compat; [exact Hbase |].
  assert (0 <= stakedSky (web3State s) / 1000)
    by (apply Qle_shift_div_l; lra).
  lra.
Qed.

Lemma housingCapOf_nonneg (g : Grid) :
  levelsPositive g → 0 <= housingCapOf g.
Proof.
  intros Hlev. rewrite housingCapOf_sum by exact Hlev.
  apply housingSum_nonneg, Hlev.
Qed.

Lemma nextPopulation_nonneg (prior dailyPopGrowth housingCap : Q) :
  0 <= prior → 0 <= dailyPopGrowth → 0 <= housingCap →
  0 <= nextPopulation prior dailyPopGrowth housingCap.
Proof.
  intros Hp Hg Hc. unfold nextPopulation, limitPop. cbn zeta.
  destruct (Qeq_bool housingCap 0 && Qlt_bool 0 prior)%bool;
    [apply Q.le_max_l |].
  destruct (Qlt_bool housingCap (prior + dailyPopGrowth)); lra.
Qed.

Lemma population_react (e : Event) (s : AppState) :
  invariant s → 0 <= population (stats s) →
  0 <= population (stats (react e s)).
Proof.
  intros Hinv Hpop. destruct e.
  2: { unfold react. destruct (gameStarted s); cbn [negb]; [| exact Hpop].
       destruct (Qle_bool 0 rnd && Qlt_bool rnd 1)%bool; [| exact Hpop].
       rewrite stats_tick. cbn.
       apply nextPopulation_nonneg;
         [exact Hpop | apply dailyPopGrowthOf_nonneg, Hinv
         | apply housingCapOf_nonneg, Hinv]. }
  all: crack_react; exact Hpop.
Qed.

Lemma reachable_population (s : AppState) :
  reachable s → 0 <= population (stats s).
Proof.
  induction 1 as [| e s Hr IH].
  - cbn. lra.
  - apply population_react; [apply reachable_invariant, Hr | exact IH].
Qed.

(** X7.  In every reachable state the population is non-negative, and so
    are the housing capacity and the population growth of the coming
    tick. *)
Theorem X7_population_nonneg (s : AppState) :
  reachable s →
  0 <= population (stats s)
  ∧ 0 <= housingCapOf (grid s)
  ∧ 0 <= dailyPopGrowthOf s.
Proof.
  intros Hr. pose proof (reachable_invariant s Hr) as Hinv.
  split; [apply reachable_population, Hr |].
  split; [apply housingCapOf_nonneg, Hinv | apply dailyPopGrowthOf_nonneg, Hinv].
Qed.

Lemma X7_population_nonneg_witness :
  reachable homelessTown
  ∧ 0 <= population (stats (react (Tick 0.5) (react (Tick 0.5) homelessTown)))
  ∧ population (stats (react (Tick 0.5) (react (Tick 0.5) homelessTown))) == 0
  ∧ population (stats (react (Tick 0.5) (react (Tick 0.5)
                 (react (Tick 0.5) homelessTown)))) == 0.
Proof.
  assert (Hr : reachable homelessTown)
    by (apply reachable_run, reachable_init).
  split; [exact Hr |].
  split; [exact (proj1 (X7_population_nonneg _
                        (reachable_react _ _ (reachable_react _ _ Hr)))) |].
  split; vm_compute; reflexivity.
Defined.

(** ** The token state *)

Lemma skyPrice_react (e : Event) (s : AppState) :
  10 <= skyPrice (web3State s) → 10 <= skyPrice (web3State (react e s)).
Proof.
  intros Hp. destruct e.
  all: crack_react; cbn; try exact Hp.
  apply Q.le_max_l.
Qed.

Lemma blockNumber_react (e : Event) (s : AppState) :
  (blockNumber (web3State s) <= blockNumber (web3State (react e s)))%Z.
Proof.
  destruct e.
  all: crack_react; cbn; lia.
Qed.

Lemma isConnected_react (e : Event) (s : AppState) :
  isConnected (web3State s) = true →
  isConnected (web3State (react e s)) = true.
Proof.
  intros Hc. destruct e.
  all: crack_react; cbn; first [exact Hc | reflexivity | congruence].
Qed.

(** X8.  In every reachable state the token price is at least 10 and the
    block number at least its starting value 1024500; no event lowers the
    block number, and no event disconnects a connected wallet. *)
Theorem X8_token_state (e : Event) (s : AppState) :
  reachable s →
  10 <= skyPrice (web3State s)
  ∧ (1024500 <= blockNumber (web3State s))%Z
  ∧ (blockNumber (web3State s) <= blockNumber (web3State (react e s)))%Z
  ∧ (isConnected (web3State s) = true →
     isConnected (web3State (react e s)) = true).
Proof.
  intros Hr.
  split; [| split; [| split; [apply blockNumber_react
                             | apply isConnected_react]]].
  - induction Hr as [| e' s' _ IH]; [cbn; lra | apply skyPrice_react, IH].
  - induction Hr as [| e' s' _ IH]; [cbn; lia |].
    pose proof (blockNumber_react e' s'). lia.
Qed.

Lemma X8_token_state_witness :
  reachable miningTown
  ∧ isConnected (web3State miningTown) = true
  ∧ 10 <= skyPrice (web3State (react (Tick 0) miningTown))
  ∧ isConnected (web3State (react ConnectWallet miningTown)) = true.
Proof.
  assert (Hr : reachable miningTown)
    by (do 2 apply reachable_run; apply reachable_init).
  assert (Hc : isConnected (web3State miningTown) = true)
    by (vm_compute; reflexivity).
  split; [exact Hr |]. split; [exact Hc |].
  split.
  - exact (proj1 (X8_token_state (Tick 0) _ (reachable_react (Tick 0) _ Hr))).
  - exact (proj2 (proj2 (proj2 (X8_token_state ConnectWallet _ Hr))) Hc).
Defined.

(** ** The modifiers *)


Lemma catalogModifiers_react (e : Event) (s : AppState) :
  catalogModifiers (gameModifiers s) →
  catalogModifiers (gameModifiers (react e s)).
Proof.
  intros [Ht Hg]. destruct e.
  all: crack_react; try (split; assumption).
  all: split; cbn; first [assumption | lra | (left; reflexivity)
                         | (right; left; reflexivity)
                         | (right; right; left; reflexivity)
                         | (right; right; reflexivity)
                         | (right; right; right; reflexivity)].
Qed.

(** X9.  The modifiers are overwritten, never accumulated: in every
    reachable state taxRate is 1, 1.2 or 0.8 and growthRate is 1, 1.5, 0.8
    or 2; and a second vote for the same effect leaves the modifiers
    where the first one put them. *)
Theorem X9_modifiers (s : AppState) (e : EffectType) :
  reachable s →
  catalogModifiers (gameModifiers s)
  ∧ gameModifiers (applyEffect e (applyEffect e s))
    = gameModifiers (applyEffect e s).
Proof.
  intros Hr. split; [| destruct e; reflexivity].
  induction Hr as [| e' s' _ IH].
  - split; left; reflexivity.
  - apply catalogModifiers_react, IH.
Qed.

Lemma X9_modifiers_witness :
  reachable festivalVote
  ∧ catalogModifiers (gameModifiers (react (Vote 0) festivalVote))
  ∧ growthRate (gameModifiers (react (Vote 0) festivalVote)) == 2
  ∧ gameModifiers (applyEffect festival (applyEffect festival festivalVote))
    = gameModifiers (applyEffect festival festivalVote).
Proof.
  assert (Hr : reachable festivalVote)
    by (apply reachable_run, reachable_init).
  split; [exact Hr |].
  split; [exact (proj1 (X9_modifiers _ festival
                          (reachable_react (Vote 0) _ Hr))) |].
  split; [vm_compute; reflexivity |].
  exact (proj2 (X9_modifiers _ festival Hr)).
Defined.

(** ** Swaps *)

(** X10.  A buy of [amount] tokens at the current price needs money >=
    amount * price; it then takes exactly amount * price from the treasury
    and adds exactly [amount] to the token balance.  A sell needs
    skyBalance >= amount and moves the same two quantities the other way.
    Without the funds the state stays as it is.  Neither the price nor the
    staked balance changes. *)
Theorem X10_swap (amount : Q) (s : AppState) :
  let price := skyPrice (web3State s) in
  let cost := amount * price in
  (let s' := handleSwap buy amount s in
   (money (stats s) < cost → s' = s)
   ∧ (cost <= money (stats s) →
      money (stats s') = money (stats s) - cost
      ∧ skyBalance (web3State s') = skyBalance (web3State s) + amount
      ∧ stakedSky (web3State s') = stakedSky (web3State s)
      ∧ skyPrice (web3State s') = price
      ∧ population (stats s') = population (stats s)
      ∧ grid s' = grid s))
  ∧ (let s' := handleSwap sell amount s in
     (skyBalance (web3State s) < amount → s' = s)
     ∧ (amount <= skyBalance (web3State s) →
        money (stats s') = money (stats s) + cost
        ∧ skyBalance (web3State s') = skyBalance (web3State s) - amount
        ∧ stakedSky (web3State s') = stakedSky (web3State s)
        ∧ skyPrice (web3State s') = price
        ∧ population (stats s') = population (stats s)
        ∧ grid s' = grid s)).
Proof.
  cbn zeta. unfold handleSwap. split.
  - destruct (Qle_bool _ _) eqn:Hfunds.
    + apply Qle_bool_iff in Hfunds. split; [intros H; lra |].
      intros _. repeat split.
    + apply Qle_bool_false in Hfunds. split; [reflexivity |]. intros H. lra.
  - destruct (Qle_bool _ _) eqn:Hfunds.
    + apply Qle_bool_iff in Hfunds. split; [intros H; lra |].
      intros _. repeat split.
    + apply Qle_bool_false in Hfunds. split; [reflexivity |]. intros H. lra.
Qed.

Lemma X10_swap_witness :
  skyPrice (web3State walletConnected) == 50
  ∧ 4 * skyPrice (web3State walletConnected)
    <= money (stats walletConnected)
  ∧ money (stats (handleSwap buy 4 walletConnected)) == 800
  ∧ skyBalance (web3State (handleSwap buy 4 walletConnected)) == 104
  ∧ handleSwap buy 21 walletConnected = walletConnected.
Proof.
  destruct (X10_swap 4 walletConnected) as [[_ Hbuy] _].
  destruct (X10_swap 21 walletConnected) as [[Hno _] _].
  assert (Hfunds : 4 * skyPrice (web3State walletConnected)
                   <= money (stats walletConnected))
    by (vm_compute; discriminate).
  destruct (Hbuy Hfunds) as (Hmoney & Hbal & _).
  split; [vm_compute; reflexivity |]. split; [exact Hfunds |].
  split; [rewrite Hmoney; vm_compute; reflexivity |].
  split; [rewrite Hbal; vm_compute; reflexivity |].
  apply Hno. vm_compute. reflexivity.
Defined.

(** ** Rewards *)

(** X13.  The reward of a goal is paid on the claim and only once: for a
    completed goal the claim adds exactly the reward to the money and
    empties the goal slot, so that a second claim changes nothing; without
    a goal, or with a goal that is not completed, the claim changes
    nothing. *)
Theorem X13_claim_reward (s : AppState) :
  (currentGoal s = None → handleClaimReward s = s)
  ∧ (∀ goal, currentGoal s = Some goal →
     (goal_completed goal = false → handleClaimReward s = s)
     ∧ (goal_completed goal = true →
        let s' := handleClaimReward s in
        money (stats s') = money (stats s) + goal_reward goal
        ∧ population (stats s') = population (stats s)
        ∧ day (stats s') = day (stats s)
        ∧ grid s' = grid s
        ∧ currentGoal s' = None
        ∧ handleClaimReward s' = s')).
Proof.
  unfold handleClaimReward. split.
  - intros H. rewrite H. reflexivity.
  - intros goal Hgoal. rewrite Hgoal. split; intros Hdone; rewrite Hdone.
    + reflexivity.
    + repeat split.
Qed.

Lemma X13_claim_reward_witness :
  currentGoal (tick 0.5 aiOnWithGoal) = Some (withCompleted true moneyGoal)
  ∧ money (stats (handleClaimReward (tick 0.5 aiOnWithGoal))) == 1300
  ∧ money (stats (handleClaimReward
                    (handleClaimReward (tick 0.5 aiOnWithGoal)))) == 1300.
Proof.
  assert (Hgoal : currentGoal (tick 0.5 aiOnWithGoal)
                  = Some (withCompleted true moneyGoal))
    by (vm_compute; reflexivity).
  destruct (proj2 (X13_claim_reward (tick 0.5 aiOnWithGoal)) _ Hgoal)
    as [_ Hpaid].
  destruct (Hpaid eq_refl) as (Hmoney & _ & _ & _ & _ & Hagain).
  split; [exact Hgoal |].
  split; [| rewrite Hagain]; rewrite Hmoney; vm_compute; reflexivity.
Defined.

(** X14.  Completion and payment are two steps.  With the AI features on
    and a goal that is not completed, a tick after which the target is
    reached marks the goal completed but stores money + income only; the
    claim that follows adds the reward, and empties the slot.  If the
    target is not reached after the tick, the claim that follows changes
    nothing. *)
Theorem X14_tick_then_claim (rnd : Q) (s : AppState) (goal : AIGoal) :
  aiEnabled s = true → currentGoal s = Some goal →
  goal_completed goal = false →
  (targetReached goal (stats (tick rnd s)) (grid s) →
   money (stats (tick rnd s)) = money (stats s) + dailyIncomeOf s
   ∧ currentGoal (tick rnd s) = Some (withCompleted true goal)
   ∧ money (stats (handleClaimReward (tick rnd s)))
     = money (stats s) + dailyIncomeOf s + goal_reward goal
   ∧ currentGoal (handleClaimReward (tick rnd s)) = None)
  ∧ (¬ targetReached goal (stats (tick rnd s)) (grid s) →
     handleClaimReward (tick rnd s) = tick rnd s).
Proof.
  intros Hai Hgoal Hdone.
  assert (Hcur : currentGoal (tick rnd s)
                 = if goalIsMet goal (nextStats s) (snd (scanGrid (grid s)))
                   then Some (withCompleted true goal) else Some goal).
  { rewrite currentGoal_tick. unfold checkGoal.
    rewrite Hgoal, Hai, Hdone. reflexivity. }
  rewrite stats_tick in *. rewrite <- goalIsMet_iff.
  destruct (goalIsMet goal (nextStats s) (snd (scanGrid (grid s)))).
  - split; [intros _ | intros H; contradiction].
    split; [reflexivity |]. split; [exact Hcur |].
    unfold handleClaimReward. rewrite Hcur. cbn. rewrite stats_tick.
    split; reflexivity.
  - split; [intros H; discriminate | intros _].
    unfold handleClaimReward. rewrite Hcur, Hdone. reflexivity.
Qed.

Lemma X14_tick_then_claim_witness :
  aiEnabled aiOnWithGoal = true
  ∧ currentGoal aiOnWithGoal = Some moneyGoal
  ∧ goal_completed moneyGoal = false
  ∧ targetReached moneyGoal (stats (tick 0.5 aiOnWithGoal))
      (grid aiOnWithGoal)
  ∧ money (stats (tick 0.5 aiOnWithGoal)) == 1000
  ∧ money (stats (handleClaimReward (tick 0.5 aiOnWithGoal))) == 1300.
Proof.
  assert (H1 : aiEnabled aiOnWithGoal = true) by reflexivity.
  assert (H2 : currentGoal aiOnWithGoal = Some moneyGoal) by reflexivity.
  assert (H3 : goal_completed moneyGoal = false) by reflexivity.
  assert (H4 : targetReached moneyGoal (stats (tick 0.5 aiOnWithGoal))
                 (grid aiOnWithGoal))
    by (vm_compute; discriminate).
  destruct (proj1 (X14_tick_then_claim 0.5 aiOnWithGoal moneyGoal H1 H2 H3)
              H4) as (Hm & _ & Hc & _).
  repeat (split; [assumption |]).
  split; [rewrite Hm | rewrite Hc]; vm_compute; reflexivity.
Defined.

(** ** Amounts *)



Lemma tokens_react (e : Event) (s : AppState) :
  0 <= population (stats s) → amountNonneg e →
  0 <= skyBalance (web3State s) ∧ 0 <= stakedSky (web3State s) →
  0 <= skyBalance (web3State (react e s))
  ∧ 0 <= stakedSky (web3State (react e s)).
Proof.
  intros Hpop Hamount [Hb Hs]. destruct e; cbn in Hamount.
  all: crack_react.
  all: repeat match goal with
       | H : Qle_bool _ _ = true |- _ => apply Qle_bool_iff in H
       end.
  all: cbn -[Qplus Qminus Qmult Qdiv Qle]; split; try assumption; try lra.
  assert (0 <= population (stats s) / 100) by (apply Qle_shift_div_l; lra).
  lra.
Qed.

(** X16.  As long as the amounts entered are not negative, the two token
    balances never become negative: from a reachable state with
    non-negative balances, every run of events whose token amounts are
    non-negative ends with non-negative balances. *)
Theorem X16_balances_nonneg (events : list Event) (s : AppState) :
  reachable s → Forall amountNonneg events →
  0 <= skyBalance (web3State s) → 0 <= stakedSky (web3State s) →
  0 <= skyBalance (web3State (run events s))
  ∧ 0 <= stakedSky (web3State (run events s)).
Proof.
  intros Hr Hall. revert s Hr.
  induction Hall as [| e events He _ IH]; intros s Hr Hb Hs.
  - split; assumption.
  - cbn. destruct (tokens_react e s (reachable_population s Hr) He
                     (conj Hb Hs)) as [Hb' Hs'].
    apply IH; [apply reachable_react, Hr | exact Hb' | exact Hs'].
Qed.

Lemma X16_balances_nonneg_witness :
  reachable initialState
  ∧ Forall amountNonneg
      [Start true; ConnectWallet; Stake 60; Tick 0.5; Unstake 70; Swap sell 50]
  ∧ skyBalance
      (web3State
         (run [Start true; ConnectWallet; Stake 60; Tick 0.5; Unstake 70;
               Swap sell 50] initialState)) == 40
  ∧ 0 <= stakedSky
           (web3State
              (run [Start true; ConnectWallet; Stake 60; Tick 0.5;
                    Unstake 70; Swap sell 50] initialState)).
Proof.
  assert (Hall : Forall amountNonneg
                   [Start true; ConnectWallet; Stake 60; Tick 0.5;
                    Unstake 70; Swap sell 50]).
  { repeat constructor; cbn; vm_compute; discriminate. }
  assert (H0 : 0 <= skyBalance (web3State initialState)) by (cbn; lra).
  assert (H1 : 0 <= stakedSky (web3State initialState)) by (cbn; lra).
  split; [apply reachable_init |]. split; [exact Hall |].
  split; [vm_compute; reflexivity |].
  exact (proj2 (X16_balances_nonneg _ _ reachable_init Hall H0 H1)).
Defined.

(** X17.  The spend paths that test the treasury never overdraw it: after
    a tile click, an upgrade or a buy, either the statistics are what they
    were or the money is not negative. *)
Theorem X17_checked_spends (e : Event) (s : AppState) :
  checkedSpend e →
  stats (react e s) = stats s ∨ 0 <= money (stats (react e s)).
Proof.
  intros He. destruct e; cbn in He; try contradiction.
  3: destruct direction; [| contradiction].
  all: crack_react.
  all: repeat match goal with
       | H : Qle_bool _ _ = true |- _ => apply Qle_bool_iff in H
       end.
  all: first [left; reflexivity
             | right; cbn -[Qplus Qminus Qmult Qle demolishCost] in *; lra
             | right; cbn -[Qplus Qminus Qmult Qle] in *;
               unfold demolishCost in *; lra].
Qed.

Lemma X17_checked_spends_witness :
  checkedSpend (TileClick 0 0)
  ∧ money (stats (react (TileClick 0 0) bulldozerInHand)) == 895
  ∧ 0 <= money (stats (react (TileClick 0 0) bulldozerInHand)).
Proof.
  split; [exact I |]. split; [vm_compute; reflexivity |].
  destruct (X17_checked_spends (TileClick 0 0) bulldozerInHand I) as [H | H].
  - vm_compute in H. discriminate.
  - exact H.
Defined.

(** ** A town without housing *)

Lemma nextPopulation_no_housing (prior dailyPopGrowth housingCap : Q) :
  housingCap == 0 → 0 <= prior → 0 <= dailyPopGrowth →
  nextPopulation prior dailyPopGrowth housingCap == Qmax 0 (prior - 5).
Proof.
  intros Hcap Hprior Hgrowth. unfold nextPopulation, limitPop. cbn zeta.
  rewrite (Qeq_eq_bool _ _ Hcap). cbn [andb].
  destruct (Qlt_bool 0 prior) eqn:Hpos; [reflexivity |].
  apply Qlt_bool_false in Hpos.
  destruct (Q.max_spec 0 (prior - 5)) as [[Hlt _] | [_ E]]; [lra |].
  rewrite E.
  destruct (Qlt_bool housingCap (prior + dailyPopGrowth)) eqn:Hover.
  - exact Hcap.
  - apply Qlt_bool_false in Hover. lra.
Qed.

Lemma Qmax_0_step (p q c : Q) :
  0 <= c → q == Qmax 0 (p - 5) → Qmax 0 (q - c) == Qmax 0 (p - (5 + c)).
Proof.
  intros Hc Hq.
  destruct (Q.max_spec 0 (p - 5)) as [[H1 E1] | [H1 E1]];
    destruct (Q.max_spec 0 (q - c)) as [[H2 E2] | [H2 E2]];
    destruct (Q.max_spec 0 (p - (5 + c))) as [[H3 E3] | [H3 E3]];
    rewrite E2, E3; rewrite E1 in Hq; lra.
Qed.

(** X18.  Without any housing the residents leave five at a time: from a
    reachable state of a started game whose housing capacity is 0, after
    [n] ticks the population is max(0, population - 5 * n). *)
Theorem X18_decay (rnds : list Q) (s : AppState) :
  reachable s → gameStarted s = true → housingCapOf (grid s) == 0 →
  Forall (λ rnd, 0 <= rnd ∧ rnd < 1) rnds →
  population (stats (run (Tick <$> rnds) s))
  == Qmax 0 (population (stats s) - 5 * inject_Z (Z.of_nat (length rnds))).
Proof.
  intros Hr Hstarted Hcap Hall. revert s Hr Hstarted Hcap.
  induction Hall as [| rnd rnds [H0 H1] _ IH]; intros s Hr Hstarted Hcap.
  - cbn [fmap list_fmap run fold_left length].
    change (inject_Z (Z.of_nat 0)) with 0.
    pose proof (reachable_population s Hr) as Hpop.
    destruct (Q.max_spec 0 (population (stats s) - 5 * 0)) as [[H E] | [H E]];
      rewrite E; lra.
  - cbn [fmap list_fmap run fold_left length].
    assert (Hreact : react (Tick rnd) s = tick rnd s).
    { unfold react. rewrite Hstarted. cbn [negb].
      apply Qle_bool_iff in H0. apply Qlt_bool_iff in H1.
      rewrite H0, H1. reflexivity. }
    fold (run (Tick <$> rnds) (react (Tick rnd) s)). rewrite Hreact.
    rewrite IH.
    + rewrite Nat2Z.inj_succ, <- Z.add_1_l, inject_Z_plus.
      rewrite Qmult_plus_distr_r.
      apply Qmax_0_step.
      * assert (0 <= inject_Z (Z.of_nat (length rnds)))
          by (change 0 with (inject_Z 0); rewrite <- Zle_Qle; lia).
        lra.
      * rewrite stats_tick. cbn.
        apply nextPopulation_no_housing;
          [exact Hcap | apply reachable_population, Hr
          | apply dailyPopGrowthOf_nonneg, reachable_invariant, Hr].
    + rewrite <- Hreact. apply reachable_react, Hr.
    + unfold tick. destruct (isConnected (web3State s)); exact Hstarted.
    + rewrite grid_tick. exact Hcap.
Qed.

Lemma X18_decay_witness :
  reachable homelessTown ∧ gameStarted homelessTown = true
  ∧ housingCapOf (grid homelessTown) == 0
  ∧ population (stats homelessTown) == 10
  ∧ population (stats (run (Tick <$> [0.1; 0.9; 0.5]) homelessTown)) == 0.
Proof.
  assert (Hr : reachable homelessTown)
    by (apply reachable_run, reachable_init).
  assert (Hs : gameStarted homelessTown = true) by (vm_compute; reflexivity).
  assert (Hc : housingCapOf (grid homelessTown) == 0)
    by (vm_compute; reflexivity).
  assert (Hall : Forall (λ rnd, 0 <= rnd ∧ rnd < 1) [0.1; 0.9; 0.5]).
  { repeat constructor; vm_compute; (discriminate || reflexivity). }
  split; [exact Hr |]. split; [exact Hs |]. split; [exact Hc |].
  split; [vm_compute; reflexivity |].
  rewrite (X18_decay _ _ Hr Hs Hc Hall). vm_compute. reflexivity.
Defined.

(** ** The price of an upgrade *)

Lemma cost_nonneg (b : BuildingType) : 0 <= cfg_cost (BUILDINGS b).
Proof. destruct b; cbn; lra. Qed.

Lemma cost_integer (b : BuildingType) :
  ∃ c : Z, cfg_cost (BUILDINGS b) = inject_Z c.
Proof. destruct b; eexists; reflexivity. Qed.

(** X19.  The price of an upgrade grows with the level and is never below
    the price of the building: for two tiles with the same building and
    levels 1 <= l <= l', the upgrade of the first costs at most the
    upgrade of the second, and at least cost(type). *)
Theorem X19_upgrade_cost_monotone (t t' : TileData) (l l' : Z) :
  tile_buildingType t = tile_buildingType t' →
  tile_level t = Some l → tile_level t' = Some l' →
  (1 <= l)%Z → (l <= l')%Z →
  (upgradeCostOf t <= upgradeCostOf t')%Z
  ∧ cfg_cost (BUILDINGS (tile_buildingType t)) <= inject_Z (upgradeCostOf t).
Proof.
  intros Htype Hl Hl' H1 Hle.
  rewrite (upgradeCostOf_level t l Hl H1).
  rewrite (upgradeCostOf_level t' l' Hl') by lia.
  rewrite <- Htype.
  pose proof (cost_nonneg (tile_buildingType t)) as Hcost.
  assert (Hpow : 1.5 ^ l <= 1.5 ^ l')
    by (apply Qpower_le_compat_l; [exact Hle | lra]).
  assert (Hone : 1 <= 1.5 ^ l).
  { rewrite <- (Qpower_0_r 1.5).
    apply Qpower_le_compat_l; [lia | lra]. }
  split.
  - apply Qfloor_resp_le. nra.
  - destruct (cost_integer (tile_buildingType t)) as [c Hc].
    rewrite Hc in *. rewrite <- Zle_Qle.
    rewrite <- (Qfloor_Z c) at 1. apply Qfloor_resp_le. nra.
Qed.

Lemma X19_upgrade_cost_monotone_witness :
  (upgradeCostOf (mkTileData 0 0 Residential None (Some 1%Z)) = 150)%Z
  ∧ (upgradeCostOf (mkTileData 0 0 Residential None (Some 3%Z)) = 337)%Z
  ∧ (upgradeCostOf (mkTileData 0 0 Residential None (Some 1%Z))
     <= upgradeCostOf (mkTileData 0 0 Residential None (Some 3%Z)))%Z.
Proof.
  split; [vm_compute; reflexivity |]. split; [vm_compute; reflexivity |].
  refine (proj1 (X19_upgrade_cost_monotone
                   (mkTileData 0 0 Residential None (Some 1%Z))
                   (mkTileData 0 0 Residential None (Some 3%Z))
                   1 3 eq_refl eq_refl eq_refl _ _)); lia.
Defined.

(** ** Proposals *)

(** X20.  A proposal from the generation service with fewer than two
    options is dropped.  With two or more, the slot holds a proposal with
    exactly the first two options, no votes, no audit, status active and
    an expiry five days after the day of the request, whatever the slot
    held before; and a vote for option 0 or 1 then empties the slot and
    sets the modifiers as the effect of that option of the service's list
    prescribes. *)
Theorem X20_generated_proposal (title description : string)
    (options : list DAOOption) (snippet : option string) (dispatchDay : Z)
    (s : AppState) :
  let s' := proposalGenerated title description options snippet dispatchDay s in
  ((length options < 2)%nat → s' = s)
  ∧ ((2 <= length options)%nat →
     (∃ p, activeProposal s' = Some p
        ∧ prop_options p = take 2 options
        ∧ length (prop_options p) = 2%nat
        ∧ prop_expiresAt p = (dispatchDay + 5)%Z
        ∧ prop_votes p = (0, 0)%Z
        ∧ prop_status p = active
        ∧ prop_audit p = None)
     ∧ stats s' = stats s ∧ grid s' = grid s
     ∧ gameModifiers s' = gameModifiers s
     ∧ ∀ i choice, (i < 2)%nat → options !! i = Some choice →
         ∃ s'', handleVote i s' = Some s''
           ∧ activeProposal s'' = None
           ∧ gameModifiers s''
             = gameModifiers (applyEffect (opt_effectType choice) s)).
Proof.
  cbn zeta. unfold proposalGenerated. split.
  - intros H. apply Nat.leb_gt in H. rewrite H. reflexivity.
  - intros H. pose proof H as Hlen. apply Nat.leb_le in H. rewrite H.
    split; [| split; [reflexivity | split; [reflexivity |
                       split; [reflexivity |]]]].
    + eexists. split; [reflexivity |]. cbn.
      split; [reflexivity |]. split; [rewrite length_take; lia |].
      repeat split.
    + intros i choice Hi Hchoice. unfold handleVote. cbn.
      rewrite lookup_take_lt by exact Hi. rewrite Hchoice. cbn.
      eexists. split; [reflexivity |]. split; [reflexivity |].
      destruct (opt_effectType choice); reflexivity.
Qed.

Lemma X20_generated_proposal_witness :
  ∃ s'',
    handleVote 1
      (proposalGenerated "T" "D"
         [mkDAOOption "a" "x" tax_break; mkDAOOption "b" "y" austerity;
          mkDAOOption "c" "z" festival] None 3 walletConnected)
    = Some s''
    ∧ activeProposal s'' = None
    ∧ taxRate (gameModifiers s'') == 0.8
    ∧ money (stats s'') == 1000.
Proof.
  destruct (X20_generated_proposal "T" "D"
              [mkDAOOption "a" "x" tax_break; mkDAOOption "b" "y" austerity;
               mkDAOOption "c" "z" festival] None 3 walletConnected)
    as [_ H].
  destruct H as (_ & _ & _ & _ & Hvote); [cbn; lia |].
  destruct (Hvote 1%nat (mkDAOOption "b" "y" austerity))
    as (s'' & Hs'' & Hslot & Hmod); [lia | reflexivity |].
  exists s''. split; [exact Hs'' |]. split; [exact Hslot |].
  split; [rewrite Hmod; vm_compute; reflexivity |].
  vm_compute in Hs''. injection Hs'' as <-. vm_compute. reflexivity.
Defined.

(** ** The map component *)

Lemma isRoadAt_true (g : Grid) (x y : Z) (b : bool) :
  isRoadAt g x y = Some b → (b = true ↔ roadOn g x y).
Proof.
  unfold isRoadAt, roadOn. intros H.
  destruct (getTile g x y) as [t |]; [| discriminate].
  cbn in H. simplify_eq. rewrite bool_decide_eq_true. split.
  - intros E. eauto.
  - intros (t' & Ht' & E). simplify_eq. exact E.
Qed.

Lemma roadOn_onMap (g : Grid) (x y : Z) :
  wellFormedGrid g → roadOn g x y → onMap x y.
Proof.
  intros (Hlen & Hrows & _) (t & Ht & _).
  destruct (decide (onMap x y)) as [H | H]; [exact H |].
  rewrite (getTile_offMap _ _ _ Hlen Hrows H) in Ht. discriminate.
Qed.

Lemma neighbour_test (g : Grid) (guard : bool) (x y : Z) :
  wellFormedGrid g →
  (guard = true → onMap x y) → (onMap x y → guard = true) →
  ∃ b, andThen guard (isRoadAt g x y) = Some b ∧ (b = true ↔ roadOn g x y).
Proof.
  intros Hwf Hin Hout. pose proof Hwf as (Hlen & Hrows & _).
  destruct guard; cbn.
  - destruct (getTile_onMap _ _ _ Hlen Hrows (Hin eq_refl)) as [t Ht].
    exists (bool_decide (tile_buildingType t = Road)).
    assert (E : isRoadAt g x y
                = Some (bool_decide (tile_buildingType t = Road)))
      by (unfold isRoadAt; rewrite Ht; reflexivity).
    split; [exact E | exact (isRoadAt_true _ _ _ _ E)].
  - exists false. split; [reflexivity |]. split; [discriminate |].
    intros Hroad. apply Hout. exact (roadOn_onMap _ _ _ Hwf Hroad).
Qed.

(** X21.  The road markings never read outside the grid: for a tile on the
    map of a reachable state the four neighbour tests return, and each
    flag is true exactly when a road stands on the neighbouring position
    (a position off the map holds no road). *)
Theorem X21_road_connections (s : AppState) (x y : Z) :
  reachable s → onMap x y →
  ∃ c, roadConnections (grid s) x y = Some c
    ∧ (hasUp c = true ↔ roadOn (grid s) x (y - 1))
    ∧ (hasDown c = true ↔ roadOn (grid s) x (y + 1))
    ∧ (hasLeft c = true ↔ roadOn (grid s) (x - 1) y)
    ∧ (hasRight c = true ↔ roadOn (grid s) (x + 1) y)
    ∧ (connections c <= 4)%nat.
Proof.
  intros Hr [Hx Hy]. pose proof (reachable_wellFormedGrid s Hr) as Hwf.
  unfold roadConnections, onMap, GRID_SIZE in *.
  destruct (neighbour_test (grid s) (0 <? y)%Z x (y - 1) Hwf)
    as (up & Eup & Hup);
    [rewrite Z.ltb_lt; unfold onMap, GRID_SIZE; lia
    | rewrite Z.ltb_lt; unfold onMap, GRID_SIZE; lia |].
  destruct (neighbour_test (grid s) (y <? 15 - 1)%Z x (y + 1) Hwf)
    as (down & Edown & Hdown);
    [rewrite Z.ltb_lt; unfold onMap, GRID_SIZE; lia
    | rewrite Z.ltb_lt; unfold onMap, GRID_SIZE; lia |].
  destruct (neighbour_test (grid s) (0 <? x)%Z (x - 1) y Hwf)
    as (left & Eleft & Hleft);
    [rewrite Z.ltb_lt; unfold onMap, GRID_SIZE; lia
    | rewrite Z.ltb_lt; unfold onMap, GRID_SIZE; lia |].
  destruct (neighbour_test (grid s) (x <? 15 - 1)%Z (x + 1) y Hwf)
    as (right & Eright & Hright);
    [rewrite Z.ltb_lt; unfold onMap, GRID_SIZE; lia
    | rewrite Z.ltb_lt; unfold onMap, GRID_SIZE; lia |].
  rewrite Eup, Edown, Eleft, Eright. cbn [mbind option_bind].
  eexists. split; [reflexivity |]. cbn [hasUp hasDown hasLeft hasRight].
  repeat (split; [assumption |]).
  unfold connections. cbn [hasUp hasDown hasLeft hasRight].
  etransitivity; [apply length_filter | cbn; lia].
Qed.

Lemma X21_road_connections_witness :
  ∃ s0 c,
    reachable s0 ∧ onMap 0 0
    ∧ roadConnections (grid s0) 0 0 = Some c
    ∧ hasUp c = false ∧ hasRight c = true ∧ connections c = 1%nat.
Proof.
  set (s0 := run [Start true; TileClick 0 0; TileClick 1 0] initialState).
  assert (Hr : reachable s0) by (apply reachable_run, reachable_init).
  assert (Hon : onMap 0 0) by (unfold onMap, GRID_SIZE; lia).
  destruct (X21_road_connections s0 0 0 Hr Hon) as (c & Hc & _).
  exists s0, c. split; [exact Hr |]. split; [exact Hon |].
  split; [exact Hc |].
  vm_compute in Hc. injection Hc as <-. repeat split.
Defined.

(** X22.  The placement preview and the click agree.  For a hovered tile on
    the map of a started, reachable game the preview test returns; where
    the preview is shown, a click builds the tool's building on that tile
    if the treasury covers its cost and otherwise leaves the grid alone;
    where it is not shown, a click builds nothing: the tile keeps its
    building or becomes empty. *)
Theorem X22_preview (s : AppState) (x y : Z) :
  reachable s → gameStarted s = true → onMap x y →
  ∃ shown tile s',
    showPreview (Some (x, y)) (grid s) (selectedTool s) = Some shown
    ∧ getTile (grid s) x y = Some tile
    ∧ handleTileClick x y s = Some s'
    ∧ (shown = true →
       (cfg_cost (BUILDINGS (selectedTool s)) <= money (stats s) →
        ∃ tile', getTile (grid s') x y = Some tile'
          ∧ tile_buildingType tile' = selectedTool s
          ∧ tile_level tile' = Some 1%Z)
       ∧ (money (stats s) < cfg_cost (BUILDINGS (selectedTool s)) →
          grid s' = grid s ∧ stats s' = stats s))
    ∧ (shown = false →
       ∃ tile', getTile (grid s') x y = Some tile'
         ∧ (tile_buildingType tile' = tile_buildingType tile
            ∨ tile_buildingType tile' = BNone)).
Proof.
  intros Hr Hstarted Hon.
  destruct (reachable_wellFormedGrid s Hr) as (Hlen & Hrows & _).
  destruct (getTile_onMap _ _ _ Hlen Hrows Hon) as [tile Htile].
  destruct Hon as [Hx Hy].
  unfold showPreview, handleTileClick.
  rewrite Hstarted, (inRange_false x y Hx Hy), Htile.
  cbn [negb mbind option_bind].
  exists (bool_decide (tile_buildingType tile = BNone)
          && bool_decide (selectedTool s ≠ BNone)), tile.
  destruct (decide (tile_buildingType tile = BNone)) as [Hempty | Hocc];
    destruct (decide (selectedTool s = BNone)) as [Hdozer | Htool].
  all: repeat first
         [ rewrite (bool_decide_eq_true_2 _ Hempty)
         | rewrite (bool_decide_eq_true_2 _ Hocc)
         | rewrite (bool_decide_eq_true_2 _ Hdozer)
         | rewrite (bool_decide_eq_true_2 _ Htool)
         | rewrite (bool_decide_eq_false_2 _ Hocc)
         | rewrite (bool_decide_eq_false_2 _ Htool)
         | rewrite (bool_decide_eq_false_2 (tile_buildingType tile ≠ BNone))
             by (intros H; exact (H Hempty))
         | rewrite (bool_decide_eq_false_2 (selectedTool s ≠ BNone))
             by (intros H; exact (H Hdozer)) ];
    cbn [andb].
  - (* bulldozer on an empty tile *)
    eexists. split; [reflexivity |]. split; [reflexivity |].
    split; [reflexivity |]. split; [discriminate |]. eauto.
  - (* a building tool on an empty tile *)
    destruct (Qle_bool _ _) eqn:Hfunds.
    + apply Qle_bool_iff in Hfunds.
      eexists. split; [reflexivity |]. split; [reflexivity |].
      split; [reflexivity |]. split; [| discriminate]. intros _.
      split; [| intros H; lra]. intros _.
      eexists. split; [cbn; eapply getTile_setTile_eq, Htile |].
      split; reflexivity.
    + apply Qle_bool_false in Hfunds.
      eexists. split; [reflexivity |]. split; [reflexivity |].
      split; [reflexivity |]. split; [| discriminate]. intros _.
      split; [intros H; lra | intros _; split; reflexivity].
  - (* bulldozer on an occupied tile *)
    destruct (Qle_bool _ _).
    + eexists. split; [reflexivity |]. split; [reflexivity |].
      split; [reflexivity |]. split; [discriminate |]. intros _.
      exists (withBuilding BNone 1 tile). split; [| right; reflexivity].
      cbn. destruct (bool_decide (selectedTilePos s = Some (x, y)));
        eapply getTile_setTile_eq, Htile.
    + eexists. split; [reflexivity |]. split; [reflexivity |].
      split; [reflexivity |]. split; [discriminate |]. eauto.
  - (* a building tool on an occupied tile *)
    destruct (bool_decide (tile_buildingType tile ≠ Road)).
    all: eexists; split; [reflexivity |]; split; [reflexivity |].
    all: split; [reflexivity |]; split; [discriminate |]; eauto.
Qed.

Lemma X22_preview_witness :
  reachable houseBuilt ∧ gameStarted houseBuilt = true ∧ onMap 4 4
  ∧ showPreview (Some (4, 4)%Z) (grid houseBuilt) (selectedTool houseBuilt)
    = Some true
  ∧ showPreview (Some (0, 0)%Z) (grid houseBuilt) (selectedTool houseBuilt)
    = Some false
  ∧ ∃ s', handleTileClick 4 4 houseBuilt = Some s'
      ∧ ∃ tile', getTile (grid s') 4 4 = Some tile'
          ∧ tile_buildingType tile' = Residential.
Proof.
  assert (Hr : reachable houseBuilt)
    by (apply reachable_run, reachable_init).
  assert (Hs : gameStarted houseBuilt = true) by (vm_compute; reflexivity).
  assert (Hon : onMap 4 4) by (unfold onMap, GRID_SIZE; lia).
  assert (Hshown : showPreview (Some (4, 4)%Z) (grid houseBuilt)
                     (selectedTool houseBuilt) = Some true)
    by (vm_compute; reflexivity).
  destruct (X22_preview houseBuilt 4 4 Hr Hs Hon)
    as (shown & tile & s' & Hsh & _ & Hclick & Hyes & _).
  rewrite Hshown in Hsh. injection Hsh as <-.
  destruct (Hyes eq_refl) as [Hbuild _].
  destruct Hbuild as (tile' & Ht' & Htype & _); [vm_compute; discriminate |].
  split; [exact Hr |]. split; [exact Hs |]. split; [exact Hon |].
  split; [exact Hshown |]. split; [vm_compute; reflexivity |].
  exists s'. split; [exact Hclick |]. exists tile'.
  split; [exact Ht' | exact Htype].
Defined.
